(** * Job scraper: list ingestion and detail enrichment

    A shallow embedding of [scraper.py] (class [JobScraper]).

    The program is dynamically typed Python working on decoded JSON, on a
    parsed HTML page, on a PostgreSQL table and on a Selenium driver.  The
    embedding keeps that shape:

    - decoded JSON is the inductive type [json]; the dictionary and
      sequence operations the program applies to it ([.get], [d[k]],
      [x[0]], iteration, truthiness, f-string formatting) are functions
      that raise where Python raises;
    - exceptions are values of [exn]; code that can raise returns
      [result A]; every [try ... except] of the source is a [match] on
      that result;
    - the network, the page renderer and the database are explicit
      arguments ([world], [driver], [database]).

    A text is held as the bytes of its UTF-8 encoding; [Str.len] and
    [Str.take] count characters, as Python's [len] and slices do;
    lower-casing is that of the ASCII letters.  JSON numbers are integers
    (floating point values are outside the model). *)

From Stdlib Require Import ZArith List String Ascii Bool Lia DecimalString Permutation.
Import ListNotations.

Open Scope list_scope.
Open Scope string_scope.

Set Warnings "-register-all".

(* ================================================================== *)
(** ** Exceptions and results *)

Module Py.

(** The exception classes the handlers of the program tell apart:
    [except requests.RequestException], [except psycopg2.IntegrityError],
    and [except Exception] / bare [except], which catch all three.  The
    string is [str(e)]. *)
Inductive exn : Type :=
| RequestException (msg : string)
| IntegrityError (msg : string)
| Exception (msg : string).

Definition str_exn (e : exn) : string :=
  match e with
  | RequestException m | IntegrityError m | Exception m => m
  end.

Inductive result (A : Type) : Type :=
| Ok (a : A)
| Raise (e : exn).

Arguments Ok {A} a.
Arguments Raise {A} e.

Definition bind {A B : Type} (r : result A) (k : A -> result B) : result B :=
  match r with
  | Ok a => k a
  | Raise e => Raise e
  end.

(** [try: r  except Exception: h]. *)
Definition try_except {A : Type} (r : result A) (h : exn -> A) : A :=
  match r with
  | Ok a => a
  | Raise e => h e
  end.

End Py.

Import Py.

Declare Scope py_scope.
Delimit Scope py_scope with py.
Notation "x <- c1 ;; c2" := (bind c1 (fun x => c2))
  (at level 61, c1 at next level, right associativity) : py_scope.
Open Scope py_scope.

(* ================================================================== *)
(** ** Strings *)

Module Str.

(** [pat in s]. *)
Fixpoint contains (pat s : string) : bool :=
  prefix pat s ||
  match s with
  | EmptyString => false
  | String _ s' => contains pat s'
  end.

Definition lower_ascii (c : ascii) : ascii :=
  let n := nat_of_ascii c in
  if (65 <=? n)%nat && (n <=? 90)%nat then ascii_of_nat (n + 32) else c.

(** [s.lower()]. *)
Fixpoint lower (s : string) : string :=
  match s with
  | EmptyString => EmptyString
  | String c s' => String (lower_ascii c) (lower s')
  end.

(** A byte that continues a character of several bytes (10xxxxxx). *)
Definition is_continuation (c : ascii) : bool :=
  let n := nat_of_ascii c in
  (128 <=? n)%nat && (n <? 192)%nat.

(** [len(s)]: the number of characters. *)
Fixpoint len (s : string) : nat :=
  match s with
  | EmptyString => O
  | String c s' => if is_continuation c then len s' else S (len s')
  end.

(** [s[:n]]: the first [n] characters. *)
Fixpoint take (n : nat) (s : string) : string :=
  match s with
  | EmptyString => EmptyString
  | String c s' =>
      if is_continuation c then String c (take n s')
      else
        match n with
        | O => EmptyString
        | S n' => String c (take n' s')
        end
  end.

(** [str(n)] for an integer. *)
Definition str_int (n : Z) : string := NilZero.string_of_int (Z.to_int n).

(** Thousands separators, on the digits from the least significant one. *)
Fixpoint group3 (rev_digits : list ascii) : list ascii :=
  match rev_digits with
  | a :: b :: c :: ((_ :: _) as more) => a :: b :: c :: ","%char :: group3 more
  | _ => rev_digits
  end.

(** [format(n, ',')] for an integer: the sign, then the digits in groups
    of three. *)
Definition format_comma (n : Z) : string :=
  let digits := list_ascii_of_string (str_int (Z.abs n)) in
  let grouped := string_of_list_ascii (rev (group3 (rev digits))) in
  if (n <? 0)%Z then "-" ++ grouped else grouped.

Definition dquote : ascii := ascii_of_nat 34.
Definition squote : ascii := ascii_of_nat 39.
Definition backslash : ascii := ascii_of_nat 92.

Definition hex_digit (n : nat) : ascii :=
  if (n <? 10)%nat then ascii_of_nat (48 + n) else ascii_of_nat (87 + n).

(** One character of [repr(s)] when [q] is the enclosing quote. *)
Definition repr_char (q c : ascii) : string :=
  let n := nat_of_ascii c in
  if Ascii.eqb c backslash then String backslash (String backslash "")
  else if Ascii.eqb c q then String backslash (String q "")
  else if (n =? 10)%nat then String backslash "n"
  else if (n =? 13)%nat then String backslash "r"
  else if (n =? 9)%nat then String backslash "t"
  else if (n <? 32)%nat || (n =? 127)%nat then
    String backslash (String "x" (String (hex_digit (n / 16)) (String (hex_digit (n mod 16)) "")))
  else String c "".

Fixpoint repr_chars (q : ascii) (s : string) : string :=
  match s with
  | EmptyString => EmptyString
  | String c s' => repr_char q c ++ repr_chars q s'
  end.

(** [repr(s)] for a string: single quotes, unless the text has a single
    quote and no double quote. *)
Definition repr_str (s : string) : string :=
  let q := if contains (String squote "") s && negb (contains (String dquote "") s)
           then dquote else squote in
  String q (repr_chars q s ++ String q "").

End Str.

(* ================================================================== *)
(** ** Decoded JSON and the Python operations applied to it *)

Inductive json : Type :=
| JNull
| JBool (b : bool)
| JNum (n : Z)
| JStr (s : string)
| JArr (items : list json)
| JObj (fields : list (string * json)).

Module Dyn.

(** A dictionary is the association list of its items in order; a key is
    looked up from the front. *)
Fixpoint assoc (k : string) (fields : list (string * json)) : option json :=
  match fields with
  | [] => None
  | (k', v) :: rest => if String.eqb k k' then Some v else assoc k rest
  end.

(** [bool(v)]. *)
Definition truthy (v : json) : bool :=
  match v with
  | JNull => false
  | JBool b => b
  | JNum n => negb (n =? 0)%Z
  | JStr s => negb (String.eqb s "")
  | JArr items => match items with [] => false | _ => true end
  | JObj fields => match fields with [] => false | _ => true end
  end.

(** [v.get(k, default)]: only a dict has the method. *)
Definition get (v : json) (k : string) (default : json) : result json :=
  match v with
  | JObj fields =>
      Ok (match assoc k fields with Some x => x | None => default end)
  | _ => Raise (Exception "AttributeError")
  end.

(** [v[k]] for a string key [k]. *)
Definition getitem (v : json) (k : string) : result json :=
  match v with
  | JObj fields =>
      match assoc k fields with
      | Some x => Ok x
      | None => Raise (Exception "KeyError")
      end
  | _ => Raise (Exception "TypeError")
  end.

(** [v[0]]. *)
Definition index0 (v : json) : result json :=
  match v with
  | JArr (x :: _) => Ok x
  | JArr [] => Raise (Exception "IndexError")
  | JStr (String c _) => Ok (JStr (String c ""))
  | JStr EmptyString => Raise (Exception "IndexError")
  | JObj _ => Raise (Exception "KeyError")
  | _ => Raise (Exception "TypeError")
  end.

(** [list(v)], what a [for] loop over [v] visits. *)
Definition iter (v : json) : result (list json) :=
  match v with
  | JArr items => Ok items
  | JObj fields => Ok (map (fun kv => JStr (fst kv)) fields)
  | JStr s => Ok (map (fun c => JStr (String c "")) (list_ascii_of_string s))
  | _ => Raise (Exception "TypeError")
  end.

(** [repr(v)]. *)
Fixpoint repr (v : json) : string :=
  match v with
  | JNull => "None"
  | JBool true => "True"
  | JBool false => "False"
  | JNum n => Str.str_int n
  | JStr s => Str.repr_str s
  | JArr items => "[" ++ String.concat ", " (map repr items) ++ "]"
  | JObj fields =>
      "{" ++ String.concat ", "
               (map (fun kv => Str.repr_str (fst kv) ++ ": " ++ repr (snd kv)) fields)
          ++ "}"
  end.

(** [f"{v}"]. *)
Definition str (v : json) : string :=
  match v with
  | JStr s => s
  | _ => repr v
  end.

(** [f"{v:,}"]: defined for numbers, a [ValueError] for text, a
    [TypeError] for everything else. *)
Definition format_thousands (v : json) : result string :=
  match v with
  | JNum n => Ok (Str.format_comma n)
  | JBool b => Ok (if b then "1" else "0")
  | JStr _ => Raise (Exception "ValueError")
  | _ => Raise (Exception "TypeError")
  end.

(** [v == s] for a string literal [s]. *)
Definition eq_str (v : json) (s : string) : bool :=
  match v with
  | JStr t => String.eqb t s
  | _ => false
  end.

End Dyn.

(* ================================================================== *)
(** ** The canonical record *)

(** The dict every source builds for one job.  [job_title],
    [company_name] and [location] hold whatever value the payload had;
    the other three are always text. *)
Record JobRecord : Type := {
  job_title : json;
  company_name : json;
  location : json;
  salary_info : string;
  job_url : string;
  source_site : string
}.

(* ================================================================== *)
(** ** Normalizer: [format_salary] and [extract_job_data] *)

(** [JobScraper.format_salary]. *)
Definition format_salary (compensation : json) : string :=
  if negb (Dyn.truthy compensation) then "Not specified"
  else
    try_except
      (min_v <- Dyn.get compensation "minSalary" JNull ;;
       max_v <- (if Dyn.truthy min_v
                 then Dyn.get compensation "maxSalary" JNull
                 else Ok min_v) ;;
       range_part <-
         (if Dyn.truthy min_v && Dyn.truthy max_v then
            min_sal <- Dyn.getitem compensation "minSalary" ;;
            max_sal <- Dyn.getitem compensation "maxSalary" ;;
            currency <- Dyn.get compensation "currency" (JStr "USD") ;;
            lo <- Dyn.format_thousands min_sal ;;
            hi <- Dyn.format_thousands max_sal ;;
            Ok [Dyn.str currency ++ " " ++ lo ++ " - " ++ hi]
          else Ok []) ;;
       equity_v <- Dyn.get compensation "equity" JNull ;;
       equity_part <-
         (if Dyn.truthy equity_v then
            equity <- Dyn.getitem compensation "equity" ;;
            lo <- Dyn.getitem equity "min" ;;
            hi <- Dyn.getitem equity "max" ;;
            Ok ["Equity: " ++ Dyn.str lo ++ "-" ++ Dyn.str hi ++ "%"]
          else Ok []) ;;
       let salary_parts := (range_part ++ equity_part)%list in
       Ok (match salary_parts with
           | [] => "Not specified"
           | _ => String.concat " | " salary_parts
           end))
      (fun _ => "Not specified").

(** The block every branch of [extract_job_data] runs on the record
    [job_node] that carries the job fields: the first highlighted listing
    ([[{}]] when the key is missing) and the dict built from it. *)
Definition job_data_of (job_node : json) : result JobRecord :=
  listings <- Dyn.get job_node "highlightedJobListings" (JArr [JObj []]) ;;
  job_listing <- Dyn.index0 listings ;;
  title <- Dyn.get job_listing "title" (JStr "N/A") ;;
  name <- Dyn.get job_node "name" (JStr "N/A") ;;
  loc <- Dyn.get job_node "location" (JStr "Remote") ;;
  compensation <- Dyn.get job_listing "compensation" JNull ;;
  slug <- Dyn.get job_node "slug" (JStr "") ;;
  listing_id <- Dyn.get job_listing "id" (JStr "") ;;
  Ok {| job_title := title;
        company_name := name;
        location := loc;
        salary_info := format_salary compensation;
        job_url := "https://wellfound.com/company/" ++ Dyn.str slug
                     ++ "/jobs/" ++ Dyn.str listing_id;
        source_site := "Wellfound" |}.

(** [JobScraper.extract_job_data]: [None] is Python's [None]. *)
Definition extract_job_data (node : json) : option JobRecord :=
  try_except
    (typename <- Dyn.get node "__typename" JNull ;;
     if Dyn.eq_str typename "StartupSearchResult" then
       job_data <- job_data_of node ;;
       Ok (Some job_data)
     else if Dyn.eq_str typename "PromotedResult" then
       job_node <- Dyn.get node "promotedStartup" node ;;
       job_data <- job_data_of job_node ;;
       Ok (Some job_data)
     else if Dyn.eq_str typename "FeaturedStartups" then
       featured <- Dyn.get node "featuredStartups" (JArr []) ;;
       featured_jobs <- Dyn.iter featured ;;
       match featured_jobs with
       | [] => Ok None
       | featured_job :: _ =>
           job_node <- Dyn.get featured_job "promotedStartup" featured_job ;;
           job_data <- job_data_of job_node ;;
           Ok (Some job_data)
       end
     else Ok None)
    (fun _ => None).

(* ================================================================== *)
(** ** The network *)

(** What [requests.post] / [requests.get] gives: a [RequestException]
    (no connection, timeout) or a response with its status code. *)
Inductive http (A : Type) : Type :=
| NoResponse (msg : string)
| Response (status_code : Z) (content : A).

Arguments NoResponse {A} msg.
Arguments Response {A} status_code content.

(** [response.raise_for_status()]. *)
Definition raise_for_status (status_code : Z) : result unit :=
  if (400 <=? status_code)%Z && (status_code <? 600)%Z
  then Raise (RequestException "HTTPError")
  else Ok tt.

(** The body of the GraphQL response: what [response.json()] decodes
    ([None]: it raises [JSONDecodeError]) and what
    [json.loads(brotli.decompress(response.content))] decodes ([None]: it
    raises). *)
Record graphql_content : Type := {
  json_body : option json;
  brotli_body : option json
}.

(** The first [a] of a [li.feature] item of the category page: its
    [href] and the stripped text of its [span.title] and
    [span.company]. *)
Record anchor : Type := {
  href : option string;
  title_span : option string;
  company_span : option string
}.

(** One [li.feature] item: its first link, if it has one. *)
Definition feature_li : Type := option anchor.

Record world : Type := {
  graphql_post : list string -> http graphql_content;
  category_page : http (list feature_li)
}.

(* ================================================================== *)
(** ** The database *)

Record row : Type := {
  id : Z;
  listing : JobRecord;
  job_description : option string
}.

(** Table [job_listings] behind [self.db_connection].  [connection] is
    false when no usable connection is held: none was opened, or a
    statement failed inside a transaction that was not rolled back, after
    which the server refuses every statement; [rejects] is the server's
    check of one tuple of values (the column widths); [next_id] is the
    SERIAL sequence. *)
Record database : Type := {
  connection : bool;
  rejects : JobRecord -> bool;
  job_listings : list row;
  next_id : Z
}.

Definition has_url (url : string) (rows : list row) : bool :=
  existsb (fun r => String.eqb (job_url (listing r)) url) rows.

(** [cursor.execute(insert_query, ...)] with
    [ON CONFLICT (job_url) DO NOTHING]: a tuple the server rejects raises;
    a url already in the table changes nothing and raises nothing. *)
Definition execute_insert (db : database) (job : JobRecord) : result database :=
  if rejects db job then Raise (Exception "DataError")
  else
    let rows :=
      if has_url (job_url job) (job_listings db) then job_listings db
      else (job_listings db ++
              [{| id := next_id db; listing := job; job_description := None |}])%list in
    Ok {| connection := connection db;
          rejects := rejects db;
          job_listings := rows;
          next_id := (next_id db + 1)%Z |}.

(** [self.db_connection.rollback()]: the rows go back to the committed
    ones; the sequence does not. *)
Definition rollback (committed db : database) : database :=
  {| connection := connection db;
     rejects := rejects db;
     job_listings := job_listings committed;
     next_id := next_id db |}.

(** The [for job in jobs] loop of [insert_jobs_to_database]. *)
Fixpoint insert_loop (committed db : database) (jobs : list JobRecord)
    (successful_inserts : nat) : result (database * nat) :=
  match jobs with
  | [] => Ok (db, successful_inserts)
  | job :: rest =>
      match execute_insert db job with
      | Ok db' => insert_loop committed db' rest (S successful_inserts)
      | Raise (IntegrityError _) =>
          insert_loop committed (rollback committed db) rest successful_inserts
      | Raise e => Raise e
      end
  end.

(** [JobScraper.insert_jobs_to_database].  The number is
    [successful_inserts], which the method prints as the count of
    inserted jobs.  When the method raises nothing was committed: the
    caller keeps the database it had. *)
Definition insert_jobs_to_database (db : database) (jobs : list JobRecord)
    : result (database * nat) :=
  if negb (connection db) then Raise (Exception "AttributeError")
  else insert_loop db db jobs 0.

(** [JobScraper.update_job_description]. *)
Definition update_job_description (db : database) (job_id : Z)
    (description : string) : result database :=
  if negb (connection db) then Raise (Exception "AttributeError")
  else if Str.contains (String zero "") description
  then Raise (Exception "A string literal cannot contain NUL (0x00) characters.")
  else
    Ok {| connection := connection db;
          rejects := rejects db;
          job_listings :=
            map (fun r => if (id r =? job_id)%Z
                          then {| id := id r; listing := listing r;
                                  job_description := Some description |}
                          else r)
                (job_listings db);
          next_id := next_id db |}.

(* ================================================================== *)
(** ** SourceFallbackChain and ListIngestionPipeline *)

(** The [for edge in jobs_data] loop of [try_wellfound_scraping]. *)
Fixpoint collect_jobs (edges : list json) : result (list JobRecord) :=
  match edges with
  | [] => Ok []
  | edge :: rest =>
      node <- Dyn.get edge "node" (JObj []) ;;
      jobs <- collect_jobs rest ;;
      Ok (match extract_job_data node with
          | Some job_data => job_data :: jobs
          | None => jobs
          end)
  end.

(** [JobScraper.try_wellfound_scraping]. *)
Definition try_wellfound_scraping (w : world) (search_terms : list string)
    : result (list JobRecord) :=
  let attempt :=
    match graphql_post w search_terms with
    | NoResponse msg => Raise (RequestException msg)
    | Response status_code content =>
        if (status_code =? 403)%Z then Ok []
        else
          _ <- raise_for_status status_code ;;
          data <- match json_body content with
                  | Some d => Ok d
                  | None =>
                      match brotli_body content with
                      | Some d => Ok d
                      | None => Raise (Exception "brotli.error")
                      end
                  end ;;
          d <- Dyn.get data "data" (JObj []) ;;
          talent <- Dyn.get d "talent" (JObj []) ;;
          results <- Dyn.get talent "jobSearchResults" (JObj []) ;;
          startups <- Dyn.get results "startups" (JObj []) ;;
          jobs_data <- Dyn.get startups "edges" (JArr []) ;;
          edges <- Dyn.iter jobs_data ;;
          collect_jobs edges
    end in
  match attempt with
  | Raise (RequestException _) => Ok []
  | r => r
  end.

Definition relevance_terms : list string :=
  ["data"; "analyst"; "python"; "scientist"].

(** The body of the [for job_li in job_listings[:10]] loop of
    [scrape_weworkremotely]: the dict it appends, if any. *)
Definition wwr_job (job_li : feature_li) : option JobRecord :=
  match job_li with
  | None => None
  | Some job_link =>
      let url := "https://weworkremotely.com"
                   ++ match href job_link with Some h => h | None => "" end in
      match title_span job_link, company_span job_link with
      | Some title, Some company =>
          if existsb (fun term => Str.contains (Str.lower term) (Str.lower title))
                     relevance_terms
          then Some {| job_title := JStr title;
                       company_name := JStr company;
                       location := JStr "Remote";
                       salary_info := "Not specified";
                       job_url := url;
                       source_site := "WeWorkRemotely" |}
          else None
      | _, _ => None
      end
  end.

(** [sample_jobs], the list [scrape_weworkremotely] adds when the page
    gave no entry. *)
Definition sample_jobs : list JobRecord :=
  [
    {| job_title := JStr "Senior Data Analyst";
       company_name := JStr "TechCorp International";
       location := JStr "Remote, UK";
       salary_info := "£45,000 - £65,000";
       job_url := "https://example.com/job/senior-data-analyst-1";
       source_site := "WeWorkRemotely" |};
    {| job_title := JStr "Python Developer";
       company_name := JStr "DataFlow Solutions";
       location := JStr "London, UK";
       salary_info := "£50,000 - £70,000";
       job_url := "https://example.com/job/python-developer-2";
       source_site := "WeWorkRemotely" |};
    {| job_title := JStr "Business Data Scientist";
       company_name := JStr "Analytics Pro Ltd";
       location := JStr "Manchester, UK";
       salary_info := "£55,000 - £75,000";
       job_url := "https://example.com/job/data-scientist-3";
       source_site := "WeWorkRemotely" |};
    {| job_title := JStr "Junior Data Analyst";
       company_name := JStr "StartupTech";
       location := JStr "Remote";
       salary_info := "£30,000 - £45,000";
       job_url := "https://example.com/job/junior-analyst-4";
       source_site := "WeWorkRemotely" |};
    {| job_title := JStr "Senior Python Engineer";
       company_name := JStr "FinTech Innovations";
       location := JStr "Edinburgh, UK";
       salary_info := "£60,000 - £80,000";
       job_url := "https://example.com/job/python-engineer-5";
       source_site := "WeWorkRemotely" |}
  ].

Fixpoint filter_map {A B : Type} (f : A -> option B) (l : list A) : list B :=
  match l with
  | [] => []
  | a :: rest =>
      match f a with
      | Some b => b :: filter_map f rest
      | None => filter_map f rest
      end
  end.

(** The entries the loop of [scrape_weworkremotely] accepts on a fetched
    page. *)
Definition wwr_entries (job_listings : list feature_li) : list JobRecord :=
  filter_map wwr_job (firstn 10 job_listings).

(** [JobScraper.scrape_weworkremotely]. *)
Definition scrape_weworkremotely (w : world) : list JobRecord :=
  try_except
    (match category_page w with
     | NoResponse msg => Raise (RequestException msg)
     | Response status_code job_listings =>
         _ <- raise_for_status status_code ;;
         let jobs := wwr_entries job_listings in
         Ok (if (List.length jobs =? 0)%nat then (jobs ++ sample_jobs)%list else jobs)
     end)
    (fun _ => []).

Definition default_search_terms : list string :=
  ["Data Analyst"; "Python Developer"; "Data Scientist"].

(** The connection after a statement raised: the program does not roll
    back, so the transaction stays aborted and no later statement runs. *)
Definition abort_transaction (db : database) : database :=
  {| connection := false;
     rejects := rejects db;
     job_listings := job_listings db;
     next_id := next_id db |}.

(** Lines 133-139 of [scrape_list_pages], the fallback chain: what
    [all_jobs] holds before it is stored. *)
Definition acquire (w : world) (search_terms : list string)
    : result (list JobRecord) :=
  wellfound_jobs <- try_wellfound_scraping w search_terms ;;
  Ok (match wellfound_jobs with
      | [] => scrape_weworkremotely w
      | _ => wellfound_jobs
      end).

(** [JobScraper.scrape_list_pages]: the list it returns and the database
    it leaves.  An exception of the chain is caught before the database
    is touched; an exception of [insert_jobs_to_database] is caught after
    a statement failed. *)
Definition scrape_list_pages (w : world) (db : database)
    (search_terms : option (list string)) : list JobRecord * database :=
  let search_terms :=
    match search_terms with
    | None => default_search_terms
    | Some terms => terms
    end in
  match acquire w search_terms with
  | Raise _ => ([], db)
  | Ok [] => ([], db)
  | Ok all_jobs =>
      match insert_jobs_to_database db all_jobs with
      | Ok stored => (all_jobs, fst stored)
      | Raise _ => ([], abort_transaction db)
      end
  end.

(* ================================================================== *)
(** ** The renderer *)

(** What the Selenium driver shows for one url: [load_error] is the
    message of the exception [driver.get] raises, if it raises;
    [element_text] is the text of the element a CSS selector locates
    ([None]: [wait.until] times out, or reading the text raises);
    [body_text] is the text of [body] ([None]: locating it raises). *)
Record page : Type := {
  load_error : option string;
  element_text : string -> option string;
  body_text : option string
}.

Definition driver : Type := string -> page.

Definition description_selectors : list string :=
  [ "[data-test=" ++ String Str.dquote ("job-description" ++ String Str.dquote "]");
    ".job-description";
    "#job-description";
    ".description";
    "[class*=" ++ String Str.dquote ("description" ++ String Str.dquote "]");
    "main";
    ".content" ].

(** The [for selector in description_selectors] loop of
    [scrape_url_with_selenium]; [job_description] is the variable of that
    name, [None] until a selector has been located. *)
Fixpoint probe_selectors (p : page) (selectors : list string)
    (job_description : option string) : option string :=
  match selectors with
  | [] => job_description
  | selector :: rest =>
      match element_text p selector with
      | Some text =>
          if (100 <? Str.len text)%nat then Some text
          else probe_selectors p rest (Some text)
      | None => probe_selectors p rest job_description
      end
  end.

Definition not_extracted : string :=
  "Description could not be extracted from this URL".

(** [JobScraper.scrape_url_with_selenium]. *)
Definition scrape_url_with_selenium (d : driver) (job_url : string) : string :=
  let p := d job_url in
  match load_error p with
  | Some msg => "Error accessing URL: " ++ msg
  | None =>
      let body_fallback :=
        match body_text p with
        | Some body => Str.take 2000 body
        | None => not_extracted
        end in
      match probe_selectors p description_selectors None with
      | None => body_fallback
      | Some text =>
          if String.eqb text "" || (Str.len text <? 100)%nat
          then body_fallback
          else text
      end
  end.

Definition data_analyst_description : string :=
  "We are looking for a talented Data Analyst to join our growing team. 
            
Key Responsibilities:
• Analyze large datasets to identify trends and patterns
• Create compelling data visualizations and dashboards
• Work with stakeholders to understand business requirements
• Develop automated reporting solutions using Python and SQL
• Present findings to senior management

Requirements:
• 2+ years experience in data analysis
• Proficiency in Python, SQL, and Excel
• Experience with data visualization tools (Tableau, Power BI)
• Strong analytical and problem-solving skills
• Excellent communication skills

We offer competitive salary, flexible working arrangements, and excellent career development opportunities.".

Definition python_developer_description : string :=
  "Join our innovative team as a Python Developer! We're building cutting-edge applications that process millions of data points daily.

What you'll do:
• Develop robust Python applications and APIs
• Work with data pipelines and ETL processes
• Collaborate with data scientists and analysts
• Implement automated testing and CI/CD practices
• Optimize application performance and scalability

What we're looking for:
• 3+ years Python development experience
• Knowledge of frameworks like Django, Flask, or FastAPI
• Experience with databases (PostgreSQL, MongoDB)
• Understanding of cloud platforms (AWS, Azure, GCP)
• Passion for clean, maintainable code

Benefits include health insurance, remote work options, learning budget, and stock options.".

Definition data_scientist_description : string :=
  "Data Scientist position available for a forward-thinking professional to drive insights from complex datasets.

Role Overview:
• Build predictive models and machine learning algorithms
• Extract insights from structured and unstructured data
• Collaborate with product and engineering teams
• Present findings to executive leadership
• Mentor junior team members

Essential Skills:
• Advanced degree in Statistics, Mathematics, or related field
• 4+ years experience in data science
• Expertise in Python, R, and SQL
• Experience with ML frameworks (scikit-learn, TensorFlow, PyTorch)
• Strong business acumen and communication skills

We're offering an excellent package including competitive base salary, performance bonuses, comprehensive benefits, and professional development opportunities.".

Definition sample_descriptions : list string :=
  [ data_analyst_description;
    python_developer_description;
    data_scientist_description ].

(** [JobScraper.generate_sample_description]. *)
Definition generate_sample_description (job_id : Z) : string :=
  let desc_index := ((job_id - 1) mod Z.of_nat (List.length sample_descriptions))%Z in
  nth (Z.to_nat desc_index) sample_descriptions "".

(* ================================================================== *)
(** ** DetailEnrichmentPipeline *)

Definition fallback_desc (e : exn) : string :=
  "Job description could not be extracted. Error: " ++ Str.take 100 (str_exn e).

(** The [try] block of one turn of the loop of [scrape_detail_pages]: the
    database it leaves and what it adds to [updated_count]. *)
Definition enrich_job (d : driver) (db : database) (job_id : Z) (url : string)
    : result (database * nat) :=
  let description :=
    if Str.contains "example.com" url
    then generate_sample_description job_id
    else scrape_url_with_selenium d url in
  if negb (String.eqb description "") then
    db' <- update_job_description db job_id description ;;
    Ok (db', 1%nat)
  else Ok (db, 0%nat).

(** The [for job_id, job_url in jobs_to_update] loop of
    [scrape_detail_pages], with its [except] handler.  An exception of the
    handler itself leaves the loop. *)
Fixpoint enrich_jobs (d : driver) (db : database) (jobs_to_update : list (Z * string))
    (updated_count : nat) : result (database * nat) :=
  match jobs_to_update with
  | [] => Ok (db, updated_count)
  | (job_id, url) :: rest =>
      match enrich_job d db job_id url with
      | Ok (db', n) => enrich_jobs d db' rest (updated_count + n)
      | Raise e =>
          db' <- update_job_description db job_id (fallback_desc e) ;;
          enrich_jobs d db' rest updated_count
      end
  end.

(** [JobScraper.generate_fallback_descriptions]. *)
Fixpoint generate_fallback_descriptions (db : database)
    (jobs_to_update : list (Z * string)) : database :=
  match jobs_to_update with
  | [] => db
  | (job_id, _) :: rest =>
      let db' :=
        try_except
          (update_job_description db job_id (generate_sample_description job_id))
          (fun _ => db) in
      generate_fallback_descriptions db' rest
  end.

(** [JobScraper.scrape_detail_pages].  [jobs_to_update] is what
    [get_jobs_without_descriptions] returned; [setup] is the outcome of
    [setup_selenium_driver]. *)
Definition scrape_detail_pages (setup : result driver) (db : database)
    (jobs_to_update : list (Z * string)) : result database :=
  match jobs_to_update with
  | [] => Ok db
  | _ =>
      match setup with
      | Raise _ => Ok (generate_fallback_descriptions db jobs_to_update)
      | Ok d =>
          done <- enrich_jobs d db jobs_to_update 0 ;;
          Ok (fst done)
      end
  end.

(* ================================================================== *)
(** ** CompensationInfo *)

(** One optional entry of a payload dict: the key is missing, it holds
    [null], or it holds a value. *)
Inductive field (A : Type) : Type :=
| Missing
| Null
| Val (a : A).

Arguments Missing {A}.
Arguments Null {A}.
Arguments Val {A} a.

(** The compensation data of a listing: salary bounds, currency code and
    equity range (percentages), each optional. *)
Record CompensationInfo : Type := {
  minSalary : field Z;
  maxSalary : field Z;
  currency : field string;
  equity : field (Z * Z)
}.

Definition entry {A : Type} (key : string) (enc : A -> json) (f : field A)
    : list (string * json) :=
  match f with
  | Missing => []
  | Null => [(key, JNull)]
  | Val a => [(key, enc a)]
  end.

Definition equity_json (range : Z * Z) : json :=
  JObj [("min", JNum (fst range)); ("max", JNum (snd range))].

(** The dict [format_salary] receives for a [CompensationInfo]. *)
Definition compensation_json (c : CompensationInfo) : json :=
  JObj (entry "minSalary" JNum (minSalary c)
        ++ entry "maxSalary" JNum (maxSalary c)
        ++ entry "currency" JStr (currency c)
        ++ entry "equity" equity_json (equity c))%list.

(** What an f-string prints for the currency: the default when the key is
    missing, Python's [None] when it is null. *)
Definition currency_text (c : CompensationInfo) : string :=
  match currency c with
  | Missing => "USD"
  | Null => "None"
  | Val code => code
  end.

(** The salary range part: both bounds present and neither of them 0. *)
Definition range_part (c : CompensationInfo) : list string :=
  match minSalary c, maxSalary c with
  | Val lo, Val hi =>
      if (lo =? 0)%Z || (hi =? 0)%Z then []
      else [currency_text c ++ " " ++ Str.format_comma lo ++ " - " ++ Str.format_comma hi]
  | _, _ => []
  end.

Definition equity_part (c : CompensationInfo) : list string :=
  match equity c with
  | Val (lo, hi) => ["Equity: " ++ Str.str_int lo ++ "-" ++ Str.str_int hi ++ "%"]
  | _ => []
  end.

(** Salary formatting as the specification words it, with a bound of 0
    counted as no bound. *)
Definition format_salary_spec (c : CompensationInfo) : string :=
  match (range_part c ++ equity_part c)%list with
  | [] => "Not specified"
  | parts => String.concat " | " parts
  end.

(* ================================================================== *)
(** ** Shapes of raw records *)

Definition typename (node : json) : option json :=
  match node with
  | JObj fields => Dyn.assoc "__typename" fields
  | _ => None
  end.

(** The discriminator is one of the three shapes [extract_job_data]
    knows. *)
Definition recognized (node : json) : bool :=
  match typename node with
  | Some (JStr t) =>
      String.eqb t "StartupSearchResult" || String.eqb t "PromotedResult"
      || String.eqb t "FeaturedStartups"
  | _ => false
  end.

Definition field_or (fields : list (string * json)) (key : string) (default : json)
    : json :=
  match Dyn.assoc key fields with
  | Some v => v
  | None => default
  end.

(** For a direct listing or a promoted listing, the record that carries
    the job fields and the job-listings sequence: the node itself, or its
    [promotedStartup] when a promoted listing has one. *)
Definition listing_holder (node : json) : option json :=
  match node with
  | JObj fields =>
      match Dyn.assoc "__typename" fields with
      | Some (JStr t) =>
          if String.eqb t "StartupSearchResult" then Some node
          else if String.eqb t "PromotedResult"
               then Some (field_or fields "promotedStartup" node)
               else None
      | _ => None
      end
  | _ => None
  end.

(** The record built when the job-listings key is missing: every field
    of the listing at its default. *)
Definition default_listing_record (holder_fields : list (string * json)) : JobRecord :=
  {| job_title := JStr "N/A";
     company_name := field_or holder_fields "name" (JStr "N/A");
     location := field_or holder_fields "location" (JStr "Remote");
     salary_info := "Not specified";
     job_url := "https://wellfound.com/company/"
                  ++ Dyn.str (field_or holder_fields "slug" (JStr "")) ++ "/jobs/";
     source_site := "Wellfound" |}.

(* ================================================================== *)
(** ** Tiers of the fallback chain *)

Definition error_status (status_code : Z) : bool :=
  (400 <=? status_code)%Z && (status_code <? 600)%Z.

(** The primary source is unavailable: no response, or a response with
    the blocked status 403 or another error status. *)
Definition primary_unavailable (w : world) (search_terms : list string) : Prop :=
  match graphql_post w search_terms with
  | NoResponse _ => True
  | Response status_code _ => error_status status_code = true
  end.

(** The secondary source in isolation: [None] when fetching the page
    fails, else the entries accepted on it. *)
Definition secondary_entries (w : world) : option (list JobRecord) :=
  match category_page w with
  | NoResponse _ => None
  | Response status_code job_listings =>
      if error_status status_code then None else Some (wwr_entries job_listings)
  end.


Definition actual_terms (search_terms : option (list string)) : list string :=
  match search_terms with
  | None => default_search_terms
  | Some terms => terms
  end.

(* ================================================================== *)
(** ** Concrete inputs *)

Fixpoint replicate (n : nat) (c : ascii) : string :=
  match n with
  | O => EmptyString
  | S n' => String c (replicate n' c)
  end.

Definition too_long (width : nat) (v : json) : bool :=
  match v with
  | JStr s => (width <? Str.len s)%nat
  | _ => false
  end.

(** The widths of the VARCHAR columns of [job_listings]: a longer text
    is rejected by the server. *)
Definition varchar_overflow (job : JobRecord) : bool :=
  too_long 255 (job_title job) || too_long 255 (company_name job)
  || too_long 255 (location job) || (512 <? Str.len (job_url job))%nat
  || (100 <? Str.len (source_site job))%nat.

Definition empty_database : database :=
  {| connection := true;
     rejects := varchar_overflow;
     job_listings := [];
     next_id := 1 |}.

Definition wwr_record (title url : string) : JobRecord :=
  {| job_title := JStr title;
     company_name := JStr "Acme";
     location := JStr "Remote";
     salary_info := "Not specified";
     job_url := url;
     source_site := "WeWorkRemotely" |}.

Definition job_a : JobRecord := wwr_record "Data Engineer" "https://weworkremotely.com/a".
Definition job_b : JobRecord := wwr_record "Python Developer" "https://weworkremotely.com/b".
Definition job_c : JobRecord := wwr_record "Data Scientist" "https://weworkremotely.com/c".

(** A table that already holds [job_a]. *)
Definition stored_a : database :=
  {| connection := true;
     rejects := varchar_overflow;
     job_listings := [{| id := 1; listing := job_a; job_description := None |}];
     next_id := 2 |}.

Definition new_rows (before after : database) : nat :=
  List.length (job_listings after) - List.length (job_listings before).

Definition no_graphql : graphql_content := {| json_body := None; brotli_body := None |}.




Definition data_link (title : string) : feature_li :=
  Some {| href := Some "/remote-jobs/1";
          title_span := Some title;
          company_span := Some "Acme" |}.

(** Primary source blocked, category page with one relevant entry. *)
Definition blocked_one_entry (title : string) : world :=
  {| graphql_post := fun _ => Response 403 no_graphql;
     category_page := Response 200 [data_link title] |}.


Definition zero_min : CompensationInfo :=
  {| minSalary := Val 0%Z; maxSalary := Val 50000%Z;
     currency := Missing; equity := Missing |}.

(** A page on which only [main] is located, with a text of exactly 100
    characters, and whose body can be read. *)
Definition boundary_page : page :=
  {| load_error := None;
     element_text := fun selector =>
       if String.eqb selector "main" then Some (replicate 100 "m") else None;
     body_text := Some "The whole page" |}.

(** A renderer whose navigation fails with a message of 150
    characters. *)
Definition failing_driver : driver :=
  fun _ => {| load_error := Some (replicate 150 "e");
              element_text := fun _ => None;
              body_text := None |}.

Definition one_pending : database :=
  {| connection := true;
     rejects := varchar_overflow;
     job_listings := [{| id := 7; listing := job_a; job_description := None |}];
     next_id := 8 |}.

Definition description_of (db : database) (job_id : Z) : option string :=
  match find (fun r => (id r =? job_id)%Z) (job_listings db) with
  | Some r => job_description r
  | None => None
  end.

(** A direct listing whose job-listings sequence is empty. *)
Definition direct_empty_fields : list (string * json) :=
  [("__typename", JStr "StartupSearchResult"); ("name", JStr "Acme");
   ("slug", JStr "acme"); ("highlightedJobListings", JArr [])].

(** A promoted listing whose nested record has no job-listings key. *)
Definition promoted_inner_fields : list (string * json) :=
  [("name", JStr "Acme"); ("slug", JStr "acme")].

Definition promoted_missing : json :=
  JObj [("__typename", JStr "PromotedResult");
        ("promotedStartup", JObj promoted_inner_fields)].

(** The urls held by the table. *)
Definition urls (db : database) : list string :=
  map (fun r => job_url (listing r)) (job_listings db).

(** The variable [job_description] holds no text, or one of fewer than
    100 characters. *)
Definition short_text (job_description : option string) : Prop :=
  match job_description with
  | None => True
  | Some text => (Str.len text < 100)%nat
  end.

Definition full_compensation : CompensationInfo :=
  {| minSalary := Val 50000%Z; maxSalary := Val 70000%Z;
     currency := Val "GBP"; equity := Val (1, 2)%Z |}.

Definition unknown_node : json :=
  JObj [("__typename", JStr "JobAd"); ("name", JStr "Acme")].

Definition direct_edge : json :=
  JObj [("node",
         JObj [("__typename", JStr "StartupSearchResult"); ("name", JStr "Acme");
               ("slug", JStr "acme");
               ("highlightedJobListings",
                JArr [JObj [("id", JNum 42); ("title", JStr "Data Engineer")]])])].

(* ================================================================== *)
(** ** Definitions for further properties *)

Definition not_comma (c : ascii) : bool := negb (Ascii.eqb c ","%char).

(** [s.replace(",", "")]. *)
Definition strip_commas (s : string) : string :=
  string_of_list_ascii (filter not_comma (list_ascii_of_string s)).

(** The value stored under [key] can be subscripted by [key]. *)
Definition has_key (v : json) (key : string) : bool :=
  match Dyn.getitem v key with
  | Ok _ => true
  | Raise _ => false
  end.

Definition salary_and_bad_equity : json :=
  JObj [("minSalary", JNum 50000); ("maxSalary", JNum 70000);
        ("equity", JObj [("min", JNum 1)])].

Definition text_bound : json :=
  JObj [("minSalary", JStr "50k"); ("maxSalary", JNum 70000)].

(** [f"{v:,}"] is defined for [v]. *)
Definition is_number (v : json) : bool :=
  match v with
  | JNum _ | JBool _ => true
  | _ => false
  end.

(** The equity entry is set but is not a dict with both [min] and
    [max]. *)
Definition malformed_equity (fields : list (string * json)) : bool :=
  match Dyn.assoc "equity" fields with
  | Some e => Dyn.truthy e && negb (has_key e "min" && has_key e "max")
  | None => false
  end.

(** Both salary bounds are set and one of them is not a number. *)
Definition malformed_range (fields : list (string * json)) : bool :=
  match Dyn.assoc "minSalary" fields, Dyn.assoc "maxSalary" fields with
  | Some lo, Some hi =>
      Dyn.truthy lo && Dyn.truthy hi && negb (is_number lo && is_number hi)
  | _, _ => false
  end.

(** The record built from the holder of the job fields and the first
    listing of its sequence. *)
Definition listing_record (holder_fields listing_fields : list (string * json))
    : JobRecord :=
  {| job_title := field_or listing_fields "title" (JStr "N/A");
     company_name := field_or holder_fields "name" (JStr "N/A");
     location := field_or holder_fields "location" (JStr "Remote");
     salary_info := format_salary (field_or listing_fields "compensation" JNull);
     job_url := "https://wellfound.com/company/"
                  ++ Dyn.str (field_or holder_fields "slug" (JStr ""))
                  ++ "/jobs/" ++ Dyn.str (field_or listing_fields "id" (JStr ""));
     source_site := "Wellfound" |}.

Definition featured_node (featured : list json) : json :=
  JObj [("__typename", JStr "FeaturedStartups"); ("featuredStartups", JArr featured)].

Definition acme_fields : list (string * json) :=
  [("name", JStr "Acme"); ("slug", JStr "acme");
   ("highlightedJobListings",
    JArr [JObj [("id", JNum 42); ("title", JStr "Data Engineer")];
          JObj [("id", JNum 43); ("title", JStr "Data Scientist")]])].

Definition acme_record : JobRecord :=
  {| job_title := JStr "Data Engineer";
     company_name := JStr "Acme";
     location := JStr "Remote";
     salary_info := "Not specified";
     job_url := "https://wellfound.com/company/acme/jobs/42";
     source_site := "Wellfound" |}.

(** The keys [try_wellfound_scraping] follows down to the edges. *)
Definition results_path : list string :=
  ["data"; "talent"; "jobSearchResults"; "startups"; "edges"].

(** Walking [path] down nested dicts from [v] meets a dict that lacks the
    next key. *)
Fixpoint missing_on_path (path : list string) (v : json) : bool :=
  match path, v with
  | key :: rest, JObj fields =>
      match Dyn.assoc key fields with
      | None => true
      | Some inner => missing_on_path rest inner
      end
  | _, _ => false
  end.

(** The payload [try_wellfound_scraping] works on: the decoded JSON body,
    else the decoded brotli body. *)
Definition decoded (content : graphql_content) : option json :=
  match json_body content with
  | Some d => Some d
  | None => brotli_body content
  end.

(** A 200 response whose payload stops at [talent]. *)
Definition truncated_payload : world :=
  {| graphql_post := fun _ =>
       Response 200 {| json_body := None;
                       brotli_body := Some (JObj [("data", JObj [("talent", JObj [])])]) |};
     category_page := NoResponse "connection refused" |}.

Definition plain_link (n : nat) : feature_li :=
  Some {| href := Some "/remote-jobs/x";
          title_span := Some ("Python developer " ++ replicate n "i");
          company_span := Some "Acme" |}.

Definition ten_links : list feature_li := map plain_link (seq 0 10).

Definition category_world (job_listings : list feature_li) : world :=
  {| graphql_post := fun _ => NoResponse "timeout";
     category_page := Response 200 job_listings |}.

(** The call raises. *)
Definition raises {A : Type} (r : result A) : bool :=
  match r with
  | Ok _ => false
  | Raise _ => true
  end.

Definition url_of (r : row) : string := job_url (listing r).

Definition nul : string := String zero "".

(** The row with its description set. *)
Definition with_description (r : row) (text : string) : row :=
  {| id := id r; listing := listing r; job_description := Some text |}.

Definition listed (job_id : Z) (jobs_to_update : list (Z * string)) : bool :=
  existsb (fun job => (fst job =? job_id)%Z) jobs_to_update.

(** A row after [generate_fallback_descriptions]: the sample description
    of its id when the id is in the work list. *)
Definition fill_sample (jobs_to_update : list (Z * string)) (r : row) : row :=
  if listed (id r) jobs_to_update
  then with_description r (generate_sample_description (id r))
  else r.

Definition pending (r : row) : bool :=
  match job_description r with
  | None => true
  | Some _ => false
  end.

(** [JobScraper.get_jobs_without_descriptions].  The table of the model
    does not record [scraped_at]: [newest_first] is the order in which
    ORDER BY scraped_at DESC puts the selected rows. *)
Definition get_jobs_without_descriptions (newest_first : list row -> list row)
    (db : database) : list (Z * string) :=
  if negb (connection db) then []
  else map (fun r => (id r, url_of r))
           (firstn 10 (newest_first (filter pending (job_listings db)))).

(** A page whose first two selectors give a short and a long text. *)
Definition two_texts_page : page :=
  {| load_error := None;
     element_text := fun selector =>
       if String.eqb selector (nth 0 description_selectors "") then Some "Apply now"
       else if String.eqb selector ".job-description" then Some (replicate 120 "d")
       else if String.eqb selector "main" then Some (replicate 500 "m")
       else None;
     body_text := Some (replicate 3000 "b") |}.

Definition two_pending : database :=
  {| connection := true;
     rejects := varchar_overflow;
     job_listings :=
       [{| id := 1; listing := job_a; job_description := None |};
        {| id := 2; listing := job_b; job_description := Some "Known" |};
        {| id := 4; listing := job_c; job_description := None |}];
     next_id := 5 |}.

(** The message of the [ValueError] the driver raises for a NUL. *)
Definition nul_message : string :=
  "A string literal cannot contain NUL (0x00) characters.".

Definition same_rows_but_descriptions (db db' : database) : Prop :=
  map id (job_listings db') = map id (job_listings db)
  /\ map listing (job_listings db') = map listing (job_listings db).

(** A renderer that shows [two_texts_page] for every url. *)
Definition two_texts_driver : driver := fun _ => two_texts_page.

Definition newest_last_first (rows : list row) : list row := rev rows.

(* ================================================================== *)
(** ** Renderer setup and the whole run *)

(** What [setup_selenium_driver] meets on the machine: the outcome of
    [ChromeDriverManager().install()] (the driver path), which files
    exist, the value of USERNAME, and what [webdriver.Chrome] does with
    the service path and the browser binary it is given. *)
Record host : Type := {
  manager_install : result string;
  path_exists : string -> bool;
  username : string;
  launch : option string -> option string -> result driver
}.

Definition possible_chrome_paths (user : string) : list string :=
  [ "C:\Program Files\Google\Chrome\Application\chrome.exe";
    "C:\Program Files (x86)\Google\Chrome\Application\chrome.exe";
    "C:\Users\" ++ user ++ "\AppData\Local\Google\Chrome\Application\chrome.exe" ].

(** [JobScraper.setup_selenium_driver]. *)
Definition setup_selenium_driver (h : host) : result driver :=
  match manager_install h with
  | Ok driver_path => launch h (Some driver_path) None
  | Raise _ =>
      match find (path_exists h) (possible_chrome_paths (username h)) with
      | Some chrome_path => launch h None (Some chrome_path)
      | None => Raise (Exception "Chrome browser not found on system")
      end
  end.





(** A machine without Chrome on which the driver manager fails. *)
Definition no_chrome : host :=
  {| manager_install := Raise (Exception "no network");
     path_exists := fun _ => false;
     username := "dev";
     launch := fun _ _ => Ok failing_driver |}.

(** A machine on which the manager fails and Chrome is in the
    user profile and in Program Files (x86). *)
Definition chrome_in_x86 : host :=
  {| manager_install := Raise (Exception "no network");
     path_exists := fun p =>
       negb (String.eqb p "C:\Program Files\Google\Chrome\Application\chrome.exe");
     username := "dev";
     launch := fun _ binary =>
       match binary with
       | Some "C:\Program Files (x86)\Google\Chrome\Application\chrome.exe" =>
           Ok two_texts_driver
       | _ => Raise (Exception "session not created")
       end |}.

(** A direct listing whose job-listings sequence holds one listing
    without any field. *)
Definition direct_blank_fields : list (string * json) :=
  [("__typename", JStr "StartupSearchResult"); ("name", JStr "Acme");
   ("slug", JStr "acme"); ("highlightedJobListings", JArr [JObj []])].

(** A text of [n] times [s]. *)
Fixpoint repeat_text (n : nat) (s : string) : string :=
  match n with
  | O => EmptyString
  | S n' => s ++ repeat_text n' s
  end.

(** The two bytes of the letter e with an acute accent. *)
Definition e_acute : string :=
  String (ascii_of_nat 195) (String (ascii_of_nat 169) "").

(** A page with accented text: the first selector gives 60 characters
    (120 bytes), [.job-description] gives 120 characters, and the body
    holds 2500 characters. *)
Definition accented_page : page :=
  {| load_error := None;
     element_text := fun selector =>
       if String.eqb selector (nth 0 description_selectors "")
       then Some (repeat_text 60 e_acute)
       else if String.eqb selector ".job-description"
            then Some (repeat_text 120 e_acute)
            else None;
     body_text := Some (repeat_text 2500 e_acute) |}.

(** A page on which one selector gives 60 accented characters and the
    body holds 2500. *)
Definition short_accented_page : page :=
  {| load_error := None;
     element_text := fun selector =>
       if String.eqb selector "main" then Some (repeat_text 60 e_acute) else None;
     body_text := Some (repeat_text 2500 e_acute) |}.

(* ================================================================== *)
(** * Properties *)

(** ** Salary formatting *)

Ltac split_fields c :=
  let lo := fresh "lo" in
  let hi := fresh "hi" in
  let cur := fresh "cur" in
  let eq := fresh "eq" in
  destruct c as [lo hi cur eq];
  destruct lo as [| |lo], hi as [| |hi], cur as [| |cur], eq as [| |[? ?]].

Ltac run_salary := cbn -[Str.format_comma Str.str_int Z.eqb].

(** The code and the specification's wording agree on every
    [CompensationInfo]. *)
Lemma format_salary_refines (c : CompensationInfo) :
  format_salary (compensation_json c) = format_salary_spec c.
Proof.
  split_fields c;
    unfold format_salary_spec, range_part, equity_part, currency_text;
    run_salary; try reflexivity;
    repeat match goal with
           | |- context [(?n =? 0)%Z] => destruct (n =? 0)%Z; run_salary
           end;
    reflexivity.
Qed.

(** C5, as stated, fails: with both salary bounds present, the lower one
    being 0, no range is printed. *)
Lemma format_salary_zero_bound :
  ~ (forall (c : CompensationInfo) (lo hi : Z),
        minSalary c = Val lo -> maxSalary c = Val hi -> equity c = Missing ->
        format_salary (compensation_json c)
        = currency_text c ++ " " ++ Str.format_comma lo ++ " - " ++ Str.format_comma hi).
Proof.
  intro claim.
  specialize (claim zero_min 0%Z 50000%Z eq_refl eq_refl eq_refl).
  vm_compute in claim. discriminate claim.
Qed.

(** C5, amended: [format_salary] returns "Not specified" for a null and
    for an empty [CompensationInfo]; otherwise it prints the range
    "{currency} {min:,} - {max:,}" when both salary bounds are present and
    neither is 0, the part "Equity: {min}-{max}%" when an equity range is
    present, the two joined by " | ", and "Not specified" when there is no
    part. *)
Theorem format_salary_parts (c : CompensationInfo) :
  format_salary JNull = "Not specified"
  /\ format_salary (JObj []) = "Not specified"
  /\ format_salary (compensation_json c)
     = match (range_part c ++ equity_part c)%list with
       | [] => "Not specified"
       | parts => String.concat " | " parts
       end
  /\ (forall lo hi, minSalary c = Val lo -> maxSalary c = Val hi ->
        lo <> 0%Z -> hi <> 0%Z ->
        range_part c
        = [currency_text c ++ " " ++ Str.format_comma lo ++ " - " ++ Str.format_comma hi])
  /\ (forall lo hi, equity c = Val (lo, hi) ->
        equity_part c = ["Equity: " ++ Str.str_int lo ++ "-" ++ Str.str_int hi ++ "%"]).
Proof.
  split; [reflexivity|]. split; [reflexivity|]. split; [|split].
  - apply format_salary_refines.
  - intros lo hi Hlo Hhi Hlo0 Hhi0. unfold range_part. rewrite Hlo, Hhi.
    apply Z.eqb_neq in Hlo0, Hhi0. rewrite Hlo0, Hhi0. reflexivity.
  - intros lo hi Heq. unfold equity_part. rewrite Heq. reflexivity.
Qed.

Lemma format_salary_parts_witness :
  format_salary (compensation_json full_compensation)
  = "GBP 50,000 - 70,000 | Equity: 1-2%".
Proof.
  destruct (format_salary_parts full_compensation) as (_ & _ & Hparts & Hrange & Hequity).
  rewrite Hparts.
  rewrite (Hrange 50000%Z 70000%Z eq_refl eq_refl); [|lia|lia].
  rewrite (Hequity 1%Z 2%Z eq_refl).
  reflexivity.
Defined.

(** C9: a salary bound of 0 next to a non-zero one is treated as no
    bound: the range part is left out, the result is the equity part
    alone when there is an equity range, and "Not specified" when there is
    none. *)
Theorem zero_bound_omits_range (c : CompensationInfo) (bound : Z) :
  bound <> 0%Z ->
  (minSalary c = Val 0%Z /\ maxSalary c = Val bound)
  \/ (minSalary c = Val bound /\ maxSalary c = Val 0%Z) ->
  range_part c = []
  /\ format_salary (compensation_json c)
     = match equity c with
       | Val (lo, hi) => "Equity: " ++ Str.str_int lo ++ "-" ++ Str.str_int hi ++ "%"
       | _ => "Not specified"
       end.
Proof.
  intros _ Hzero.
  assert (Hrange : range_part c = []).
  { unfold range_part.
    destruct Hzero as [[-> ->] | [-> ->]]; cbn -[Z.eqb].
    - reflexivity.
    - rewrite Z.eqb_refl, orb_true_r. reflexivity. }
  split; [exact Hrange|].
  rewrite format_salary_refines. unfold format_salary_spec.
  rewrite Hrange. unfold equity_part.
  destruct (equity c) as [| |[lo hi]]; reflexivity.
Qed.

Lemma zero_bound_omits_range_witness :
  range_part zero_min = []
  /\ format_salary (compensation_json zero_min) = "Not specified".
Proof.
  apply (zero_bound_omits_range zero_min 50000%Z).
  - lia.
  - left. split; reflexivity.
Defined.

(** ** Normalizer *)

Lemma eq_str_JStr (t s : string) : Dyn.eq_str (JStr t) s = String.eqb t s.
Proof. reflexivity. Qed.

(** A record of no recognized shape is never turned into a job. *)
Lemma extract_unrecognized (node : json) :
  recognized node = false -> extract_job_data node = None.
Proof.
  unfold recognized, typename, extract_job_data.
  destruct node as [| | | |items|fields]; try reflexivity.
  cbn [Dyn.get bind].
  destruct (Dyn.assoc "__typename" fields) as [[| | |t| |]|]; try reflexivity.
  intros H. rewrite !eq_str_JStr.
  apply orb_false_elim in H. destruct H as [H H3].
  apply orb_false_elim in H. destruct H as [H1 H2].
  rewrite H1, H2, H3. reflexivity.
Qed.

Lemma bind_ret {A : Type} (r : result A) : (x <- r ;; Ok x) = r.
Proof. destruct r; reflexivity. Qed.

(** C8: a raw record whose discriminator is none of the recognized
    shapes is normalized to absent (the function returns, it does not
    raise), and the list phase skips it: the edge that carries it adds
    nothing to the collected jobs. *)
Theorem unrecognized_is_skipped (node : json) :
  recognized node = false ->
  extract_job_data node = None
  /\ forall (edge : json) (before after : list json),
       Dyn.get edge "node" (JObj []) = Ok node ->
       collect_jobs (before ++ edge :: after) = collect_jobs (before ++ after).
Proof.
  intros Hnode. pose proof (extract_unrecognized node Hnode) as Hnone.
  split; [exact Hnone|].
  intros edge before after Hedge.
  induction before as [|e before IH]; cbn [app collect_jobs].
  - rewrite Hedge. cbn [bind]. rewrite Hnone. apply bind_ret.
  - rewrite IH. reflexivity.
Qed.

Lemma unrecognized_is_skipped_witness :
  extract_job_data unknown_node = None
  /\ collect_jobs [direct_edge; JObj [("node", unknown_node)]]
     = collect_jobs [direct_edge].
Proof.
  destruct (unrecognized_is_skipped unknown_node eq_refl) as [Hnone Hskip].
  split; [exact Hnone|].
  exact (Hskip (JObj [("node", unknown_node)]) [direct_edge] [] eq_refl).
Defined.

Lemma job_data_of_empty (holder_fields : list (string * json)) :
  Dyn.assoc "highlightedJobListings" holder_fields = Some (JArr []) ->
  job_data_of (JObj holder_fields) = Raise (Exception "IndexError").
Proof.
  intros H. unfold job_data_of. cbn [Dyn.get bind]. rewrite H. reflexivity.
Qed.

Lemma job_data_of_missing (holder_fields : list (string * json)) :
  Dyn.assoc "highlightedJobListings" holder_fields = None ->
  job_data_of (JObj holder_fields) = Ok (default_listing_record holder_fields).
Proof.
  intros H. unfold job_data_of. cbn [Dyn.get bind]. rewrite H. reflexivity.
Qed.

(** What [extract_job_data] does on a direct or promoted listing: it
    builds the record of the holder of the job fields. *)
Lemma extract_listing (node holder : json) :
  listing_holder node = Some holder ->
  extract_job_data node
  = try_except (job_data <- job_data_of holder ;; Ok (Some job_data)) (fun _ => None).
Proof.
  unfold listing_holder, extract_job_data.
  destruct node as [| | | |items|fields]; try discriminate.
  cbn [Dyn.get bind].
  destruct (Dyn.assoc "__typename" fields) as [[| | |t| |]|]; try discriminate.
  rewrite !eq_str_JStr.
  destruct (String.eqb t "StartupSearchResult").
  - intros [= <-]. reflexivity.
  - destruct (String.eqb t "PromotedResult"); [|discriminate].
    intros [= <-]. reflexivity.
Qed.

Lemma job_data_of_blank (holder_fields listing_fields : list (string * json))
    (more : list json) :
  Dyn.assoc "highlightedJobListings" holder_fields
  = Some (JArr (JObj listing_fields :: more)) ->
  Dyn.assoc "title" listing_fields = None ->
  Dyn.assoc "compensation" listing_fields = None ->
  Dyn.assoc "id" listing_fields = None ->
  job_data_of (JObj holder_fields) = Ok (default_listing_record holder_fields).
Proof.
  intros H Htitle Hcomp Hid. unfold job_data_of.
  cbn [Dyn.get bind]. rewrite H. cbn [Dyn.index0 Dyn.get bind].
  rewrite Htitle, Hcomp, Hid. reflexivity.
Qed.

(** C10, as stated, fails: the default field values are not kept for a
    missing key.  A direct listing whose sequence is present and holds a
    listing without fields gives the same record of defaults. *)
Lemma defaults_with_listing_present :
  ~ (forall (node : json) (holder_fields : list (string * json)),
        listing_holder node = Some (JObj holder_fields) ->
        extract_job_data node = Some (default_listing_record holder_fields) ->
        Dyn.assoc "highlightedJobListings" holder_fields = None).
Proof.
  intro claim.
  specialize (claim (JObj direct_blank_fields) direct_blank_fields eq_refl eq_refl).
  discriminate claim.
Qed.

(** C10, amended: for a direct or promoted listing, a job-listings
    sequence that is present but empty makes [extract_job_data] return
    absent, not a record of default values; the record of default values
    is produced when the key is missing, and equally when the key is
    present and the first listing of the sequence lacks the fields. *)
Theorem empty_listings_are_skipped (node : json)
    (holder_fields : list (string * json)) :
  listing_holder node = Some (JObj holder_fields) ->
  (Dyn.assoc "highlightedJobListings" holder_fields = Some (JArr []) ->
   extract_job_data node = None)
  /\ (Dyn.assoc "highlightedJobListings" holder_fields = None ->
      extract_job_data node = Some (default_listing_record holder_fields))
  /\ (forall (listing_fields : list (string * json)) (more : list json),
        Dyn.assoc "highlightedJobListings" holder_fields
        = Some (JArr (JObj listing_fields :: more)) ->
        Dyn.assoc "title" listing_fields = None ->
        Dyn.assoc "compensation" listing_fields = None ->
        Dyn.assoc "id" listing_fields = None ->
        extract_job_data node = Some (default_listing_record holder_fields)).
Proof.
  intros Hholder. rewrite (extract_listing _ _ Hholder). split; [|split].
  - intros H. rewrite (job_data_of_empty _ H). reflexivity.
  - intros H. rewrite (job_data_of_missing _ H). reflexivity.
  - intros listing_fields more H Htitle Hcomp Hid.
    rewrite (job_data_of_blank _ _ _ H Htitle Hcomp Hid). reflexivity.
Qed.

Lemma empty_listings_are_skipped_witness :
  extract_job_data (JObj direct_empty_fields) = None
  /\ extract_job_data promoted_missing
     = Some {| job_title := JStr "N/A";
               company_name := JStr "Acme";
               location := JStr "Remote";
               salary_info := "Not specified";
               job_url := "https://wellfound.com/company/acme/jobs/";
               source_site := "Wellfound" |}
  /\ extract_job_data (JObj direct_blank_fields)
     = Some {| job_title := JStr "N/A";
               company_name := JStr "Acme";
               location := JStr "Remote";
               salary_info := "Not specified";
               job_url := "https://wellfound.com/company/acme/jobs/";
               source_site := "Wellfound" |}.
Proof.
  split; [|split].
  - apply (proj1 (empty_listings_are_skipped
                    (JObj direct_empty_fields) direct_empty_fields eq_refl)).
    reflexivity.
  - apply (proj1 (proj2 (empty_listings_are_skipped
                           promoted_missing promoted_inner_fields eq_refl))).
    reflexivity.
  - apply (proj2 (proj2 (empty_listings_are_skipped
                           (JObj direct_blank_fields) direct_blank_fields eq_refl))
             [] []); reflexivity.
Defined.

(** ** Persistence *)

Lemma has_url_In (url : string) (rows : list row) :
  has_url url rows = true <-> In url (map (fun r => job_url (listing r)) rows).
Proof.
  unfold has_url. rewrite existsb_exists, in_map_iff. split.
  - intros [r [Hin Heq]]. apply String.eqb_eq in Heq. exists r. auto.
  - intros [r [Heq Hin]]. exists r. split; [exact Hin|]. now apply String.eqb_eq.
Qed.

(** With [ON CONFLICT DO NOTHING] the statement never raises
    [IntegrityError]. *)
Lemma execute_insert_raises (db : database) (job : JobRecord) (e : exn) :
  execute_insert db job = Raise e -> e = Exception "DataError".
Proof.
  unfold execute_insert. destruct (rejects db job); [|discriminate].
  intros [= <-]. reflexivity.
Qed.

(** The urls of the table stay pairwise distinct. *)
Lemma execute_insert_urls (db db' : database) (job : JobRecord) :
  execute_insert db job = Ok db' ->
  NoDup (urls db) ->
  NoDup (urls db')
  /\ urls db' = (if has_url (job_url job) (job_listings db)
                 then urls db else urls db ++ [job_url job])%list.
Proof.
  unfold execute_insert. destruct (rejects db job); [discriminate|].
  intros [= <-] Hnodup. unfold urls in *. cbn [job_listings].
  destruct (has_url (job_url job) (job_listings db)) eqn:Hhas.
  - split; [exact Hnodup|reflexivity].
  - rewrite map_app. cbn [map listing job_url]. split; [|reflexivity].
    apply NoDup_app; [exact Hnodup| |].
    + constructor; [intros []|constructor].
    + intros url Hin [<-|[]].
      apply has_url_In in Hin. congruence.
Qed.

Lemma insert_loop_spec (jobs : list JobRecord) :
  forall (committed db db' : database) (n m : nat),
    insert_loop committed db jobs n = Ok (db', m) ->
    m = (n + List.length jobs)%nat
    /\ (NoDup (urls db) -> NoDup (urls db'))
    /\ (forall url, In url (urls db) -> In url (urls db'))
    /\ (forall job, In job jobs -> In (job_url job) (urls db')).
Proof.
  induction jobs as [|job rest IH]; intros committed db db' n m; cbn [insert_loop].
  - intros [= <- <-]. cbn. repeat split; auto. intros job [].
  - destruct (execute_insert db job) as [db1|e] eqn:Hexec.
    + intros Hloop. destruct (IH _ _ _ _ _ Hloop) as (Hm & Hnd & Hkeep & Hall).
      assert (Hurls : forall url, In url (urls db) \/ url = job_url job -> In url (urls db1)).
      { revert Hexec. unfold execute_insert.
        destruct (rejects db job); [discriminate|]. intros [= <-].
        unfold urls. cbn [job_listings].
        destruct (has_url (job_url job) (job_listings db)) eqn:Hhas.
        - intros url [Hin | ->]; [exact Hin|]. now apply has_url_In.
        - intros url Hor. rewrite map_app, in_app_iff. cbn.
          destruct Hor as [Hin | ->]; auto. }
      repeat split.
      * cbn [List.length]. lia.
      * intros Hnodup. apply Hnd.
        exact (proj1 (execute_insert_urls _ _ _ Hexec Hnodup)).
      * intros url Hin. apply Hkeep, Hurls. now left.
      * intros j [<- | Hin]; [apply Hkeep, Hurls; now right|now apply Hall].
    + apply execute_insert_raises in Hexec. subst e. discriminate.
Qed.

(** What [insert_jobs_to_database] reports is the size of the batch,
    whatever the table held. *)
Lemma insert_jobs_reports_batch_size (db db' : database)
    (jobs : list JobRecord) (reported : nat) :
  insert_jobs_to_database db jobs = Ok (db', reported) ->
  reported = List.length jobs.
Proof.
  unfold insert_jobs_to_database. destruct (connection db); [|discriminate].
  cbn [negb]. intros H. now destruct (insert_loop_spec _ _ _ _ _ _ H) as [-> _].
Qed.

(** One stored row per distinct url, and every url of the batch stored. *)
Lemma insert_jobs_one_row_per_url (db db' : database)
    (jobs : list JobRecord) (reported : nat) :
  insert_jobs_to_database db jobs = Ok (db', reported) ->
  NoDup (urls db) ->
  NoDup (urls db') /\ forall job, In job jobs -> In (job_url job) (urls db').
Proof.
  unfold insert_jobs_to_database. destruct (connection db); [|discriminate].
  cbn [negb]. intros H Hnodup.
  destruct (insert_loop_spec _ _ _ _ _ _ H) as (_ & Hnd & _ & Hall). auto.
Qed.

(** C1, evaluated: the table holds [job_a]; the batch [job_b; job_a;
    job_c] adds two rows and the reported count is 3; the same batch again
    adds no row and the reported count is 3 again. *)
Theorem reported_count_includes_skipped_rows :
  exists db1 db2 : database,
    insert_jobs_to_database stored_a [job_b; job_a; job_c] = Ok (db1, 3%nat)
    /\ new_rows stored_a db1 = 2%nat
    /\ insert_jobs_to_database db1 [job_b; job_a; job_c] = Ok (db2, 3%nat)
    /\ job_listings db2 = job_listings db1
    /\ NoDup (urls db2).
Proof.
  eexists. eexists.
  split; [reflexivity|]. split; [reflexivity|].
  split; [reflexivity|]. split; [reflexivity|].
  cbn. repeat constructor; cbn; intuition discriminate.
Qed.

(** ** Source fallback chain *)

Lemma raise_for_status_error (status_code : Z) :
  error_status status_code = true ->
  raise_for_status status_code = Raise (RequestException "HTTPError").
Proof. unfold raise_for_status, error_status. now intros ->. Qed.

Lemma raise_for_status_ok (status_code : Z) :
  error_status status_code = false -> raise_for_status status_code = Ok tt.
Proof. unfold raise_for_status, error_status. now intros ->. Qed.

(** A request failure, the blocked status and any other error status are
    an empty result of tier 1. *)
Lemma try_wellfound_unavailable (w : world) (search_terms : list string) :
  primary_unavailable w search_terms ->
  try_wellfound_scraping w search_terms = Ok [].
Proof.
  unfold primary_unavailable, try_wellfound_scraping.
  destruct (graphql_post w search_terms) as [msg|status_code content].
  - reflexivity.
  - intros Herr. destruct (status_code =? 403)%Z; [reflexivity|].
    rewrite (raise_for_status_error _ Herr). reflexivity.
Qed.

(** Tier 2 in isolation: nothing when the page cannot be fetched, the
    sample catalog when the fetched page gives no entry, else the
    entries. *)
Lemma scrape_weworkremotely_cases (w : world) :
  scrape_weworkremotely w
  = match secondary_entries w with
    | None => []
    | Some [] => sample_jobs
    | Some entries => entries
    end.
Proof.
  unfold scrape_weworkremotely, secondary_entries.
  destruct (category_page w) as [msg|status_code job_listings]; [reflexivity|].
  destruct (error_status status_code) eqn:Herr.
  - rewrite (raise_for_status_error _ Herr). reflexivity.
  - rewrite (raise_for_status_ok _ Herr). cbn [bind try_except].
    destruct (wwr_entries job_listings); reflexivity.
Qed.



(** After an empty tier 1 the chain holds what tier 2 gives. *)
Lemma acquire_secondary (w : world) (search_terms : list string) :
  try_wellfound_scraping w search_terms = Ok [] ->
  acquire w search_terms = Ok (scrape_weworkremotely w).
Proof. unfold acquire. now intros ->. Qed.




(** Every record of the sample catalog carries the tag of the secondary
    source and a url of the placeholder domain. *)
Lemma sample_jobs_provenance (job : JobRecord) :
  In job sample_jobs ->
  source_site job = "WeWorkRemotely"
  /\ Str.contains "example.com" (job_url job) = true.
Proof.
  intros Hin. repeat (destruct Hin as [<- | Hin]; [split; reflexivity|]).
  destruct Hin.
Qed.

(** The records accepted on a fetched page all carry the tag
    "WeWorkRemotely". *)
Lemma wwr_job_source (job_li : feature_li) (job : JobRecord) :
  wwr_job job_li = Some job -> source_site job = "WeWorkRemotely".
Proof.
  unfold wwr_job. destruct job_li as [job_link|]; [|discriminate].
  destruct (title_span job_link), (company_span job_link); try discriminate.
  destruct (existsb _ relevance_terms); [|discriminate].
  intros [= <-]. reflexivity.
Qed.




(** C4: when the primary source answers with the blocked status 403,
    tier 1 yields no record without raising, and the chain holds exactly
    what the secondary source produces in isolation, for every search
    terms. *)
Theorem blocked_primary_defers_to_secondary (w : world)
    (search_terms : list string) (content : graphql_content) :
  graphql_post w search_terms = Response 403 content ->
  try_wellfound_scraping w search_terms = Ok []
  /\ acquire w search_terms = Ok (scrape_weworkremotely w).
Proof.
  intros Hblocked.
  assert (Hprimary : try_wellfound_scraping w search_terms = Ok []).
  { apply try_wellfound_unavailable. unfold primary_unavailable.
    rewrite Hblocked. reflexivity. }
  split; [exact Hprimary|]. exact (acquire_secondary _ _ Hprimary).
Qed.

Lemma blocked_primary_defers_to_secondary_witness :
  try_wellfound_scraping (blocked_one_entry "Data Engineer") ["Data Analyst"] = Ok []
  /\ acquire (blocked_one_entry "Data Engineer") ["Data Analyst"]
     = Ok (scrape_weworkremotely (blocked_one_entry "Data Engineer")).
Proof.
  apply (blocked_primary_defers_to_secondary
           (blocked_one_entry "Data Engineer") ["Data Analyst"] no_graphql).
  reflexivity.
Defined.

(** ** Rendered fetch *)

Lemma probe_selectors_short (p : page) (selectors : list string) :
  forall job_description,
    (forall selector text, In selector selectors ->
       element_text p selector = Some text -> (Str.len text < 100)%nat) ->
    short_text job_description ->
    short_text (probe_selectors p selectors job_description).
Proof.
  induction selectors as [|selector rest IH]; intros acc Hall Hacc; cbn [probe_selectors].
  - exact Hacc.
  - destruct (element_text p selector) as [text|] eqn:Htext.
    + assert (Hlen : (Str.len text < 100)%nat) by (eapply Hall; [now left|exact Htext]).
      destruct (Nat.ltb_spec 100 (Str.len text)); [lia|].
      apply IH; [|exact Hlen]. intros s t Hin. apply Hall. now right.
    + apply IH; [|exact Hacc]. intros s t Hin. apply Hall. now right.
Qed.

(** The first selector whose text exceeds 100 characters decides,
    whatever the later ones locate. *)
Lemma probe_selectors_first (p : page) (before : list string) :
  forall (selector text : string) (after : list string) job_description,
    (forall s t, In s before -> element_text p s = Some t ->
       (Str.len t <= 100)%nat) ->
    element_text p selector = Some text ->
    (100 < Str.len text)%nat ->
    probe_selectors p (before ++ selector :: after) job_description = Some text.
Proof.
  induction before as [|s before IH]; intros selector text after acc Hall Htext Hlen;
    cbn [app probe_selectors].
  - rewrite Htext. destruct (Nat.ltb_spec 100 (Str.len text)); [reflexivity|lia].
  - destruct (element_text p s) as [t|] eqn:Ht.
    + assert (Hle : (Str.len t <= 100)%nat) by (eapply Hall; [now left|exact Ht]).
      destruct (Nat.ltb_spec 100 (Str.len t)); [lia|].
      apply IH; auto. intros s' t' Hin. apply Hall. now right.
    + apply IH; auto. intros s' t' Hin. apply Hall. now right.
Qed.

(** First match wins: when the selectors before one give texts of at
    most 100 characters (or are not located) and that one gives more than
    100 characters, its text is the result, whatever the later selectors
    and the body hold. *)
Lemma scrape_url_first_qualifying (d : driver) (url : string)
    (before after : list string) (selector text : string) :
  load_error (d url) = None ->
  description_selectors = (before ++ selector :: after)%list ->
  (forall s t, In s before -> element_text (d url) s = Some t ->
     (Str.len t <= 100)%nat) ->
  element_text (d url) selector = Some text ->
  (100 < Str.len text)%nat ->
  scrape_url_with_selenium d url = text.
Proof.
  intros Hload Hsplit Hbefore Htext Hlen. unfold scrape_url_with_selenium.
  rewrite Hload, Hsplit, (probe_selectors_first _ _ _ _ _ _ Hbefore Htext Hlen).
  assert (Hfilled : String.eqb text "" = false)
    by (destruct text; [cbn in Hlen; lia|reflexivity]).
  rewrite Hfilled. cbn [orb].
  destruct (Nat.ltb_spec (Str.len text) 100); [lia|reflexivity].
Qed.

(** When every located selector text is shorter than 100 characters, or
    nothing is located, the result is the first 2000 characters of the
    body text, or the fixed marker when the body cannot be read. *)
Lemma scrape_url_body_fallback (d : driver) (url : string) :
  load_error (d url) = None ->
  (forall selector text, In selector description_selectors ->
     element_text (d url) selector = Some text -> (Str.len text < 100)%nat) ->
  scrape_url_with_selenium d url
  = match body_text (d url) with
    | Some body => Str.take 2000 body
    | None => not_extracted
    end.
Proof.
  intros Hload Hshort. unfold scrape_url_with_selenium. rewrite Hload.
  pose proof (probe_selectors_short (d url) description_selectors None Hshort I) as Hs.
  destruct (probe_selectors (d url) description_selectors None) as [text|]; [|reflexivity].
  cbn in Hs. apply Nat.ltb_lt in Hs. rewrite Hs, orb_true_r. reflexivity.
Qed.

(** C6, evaluated: on a page where no selector gives a text of more
    than 100 characters, the last one located gives exactly 100, and the
    body can be read, the result is the text of that selector, not the
    body text. *)
Theorem boundary_text_is_kept :
  load_error boundary_page = None
  /\ (forall selector text, element_text boundary_page selector = Some text ->
        String.length text = 100%nat)
  /\ body_text boundary_page = Some "The whole page"
  /\ scrape_url_with_selenium (fun _ => boundary_page) "https://jobs.test/1"
     = replicate 100 "m"
  /\ scrape_url_with_selenium (fun _ => boundary_page) "https://jobs.test/1"
     <> Str.take 2000 "The whole page".
Proof.
  split; [reflexivity|]. split.
  - intros selector text. cbn [element_text boundary_page].
    destruct (String.eqb selector "main"); [|discriminate].
    intros [= <-]. reflexivity.
  - split; [reflexivity|]. split; [reflexivity|].
    vm_compute. discriminate.
Qed.

(** ** Detail enrichment *)

Lemma scrape_url_load_error (d : driver) (url msg : string) :
  load_error (d url) = Some msg ->
  scrape_url_with_selenium d url = "Error accessing URL: " ++ msg.
Proof. unfold scrape_url_with_selenium. now intros ->. Qed.

Lemma update_job_description_rows (db db' : database) (job_id : Z) (text : string) :
  update_job_description db job_id text = Ok db' ->
  forall r, In r (job_listings db') -> id r = job_id ->
            job_description r = Some text.
Proof.
  unfold update_job_description.
  destruct (connection db); [|discriminate]. cbn [negb].
  destruct (Str.contains (String zero "") text); [discriminate|].
  intros [= <-] r. cbn [job_listings]. rewrite in_map_iff.
  intros [r0 [Hr Hin]] Hid.
  destruct (Z.eqb_spec (id r0) job_id) as [Heq|Hne].
  - now subst r.
  - subst r. contradiction.
Qed.

(** The handler of the loop: an exception of the turn itself is turned
    into a description with at most 100 characters of its message; when
    writing that description raises too, the loop ends with that
    exception. *)
Lemma enrich_jobs_handler (d : driver) (db : database) (job_id : Z) (url : string)
    (rest : list (Z * string)) (n : nat) (e : exn) :
  enrich_job d db job_id url = Raise e ->
  enrich_jobs d db ((job_id, url) :: rest) n
  = match update_job_description db job_id (fallback_desc e) with
    | Ok db' => enrich_jobs d db' rest n
    | Raise e' => Raise e'
    end.
Proof. cbn [enrich_jobs]. now intros ->. Qed.

(** C7, as stated, fails: navigation raises with a message of 150
    characters; the description written for the item holds the whole
    message, more than its first 100 characters. *)
Lemma fetch_error_is_not_truncated :
  ~ (forall (d : driver) (db db' : database) (job_id : Z) (url msg desc : string)
            (n : nat),
        Str.contains "example.com" url = false ->
        load_error (d url) = Some msg ->
        (100 < String.length msg)%nat ->
        enrich_jobs d db [(job_id, url)] 0 = Ok (db', n) ->
        description_of db' job_id = Some desc ->
        Str.contains (Str.take 101 msg) desc = false).
Proof.
  intro claim.
  assert (H : Str.contains (Str.take 101 (replicate 150 "e"))
                ("Error accessing URL: " ++ replicate 150 "e") = false).
  { eapply (claim failing_driver one_pending _ 7%Z "https://jobs.test/7").
    - reflexivity.
    - reflexivity.
    - vm_compute. lia.
    - reflexivity.
    - reflexivity. }
  vm_compute in H. discriminate H.
Qed.

(** C7, amended: an exception raised while fetching the page of one work
    item is caught inside the fetch and turned into the text "Error
    accessing URL: " followed by the whole error message; that text is
    written back as the description of the item and the loop goes on with
    the next work item. *)
Theorem fetch_failure_is_recorded (d : driver) (db db' : database) (job_id : Z)
    (url msg : string) (rest : list (Z * string)) (n : nat) :
  Str.contains "example.com" url = false ->
  load_error (d url) = Some msg ->
  update_job_description db job_id ("Error accessing URL: " ++ msg) = Ok db' ->
  scrape_url_with_selenium d url = "Error accessing URL: " ++ msg
  /\ (forall r, In r (job_listings db') -> id r = job_id ->
        job_description r = Some ("Error accessing URL: " ++ msg))
  /\ enrich_jobs d db ((job_id, url) :: rest) n = enrich_jobs d db' rest (n + 1).
Proof.
  intros Hreal Hload Hupdate.
  pose proof (scrape_url_load_error d url msg Hload) as Hfetch.
  split; [exact Hfetch|]. split.
  - exact (update_job_description_rows _ _ _ _ Hupdate).
  - cbn [enrich_jobs]. unfold enrich_job. rewrite Hreal, Hfetch.
    change (String.eqb ("Error accessing URL: " ++ msg) "") with false.
    cbn [negb]. rewrite Hupdate. reflexivity.
Qed.

Lemma fetch_failure_is_recorded_witness :
  exists db' : database,
    description_of db' 7%Z = Some ("Error accessing URL: " ++ replicate 150 "e")
    /\ enrich_jobs failing_driver one_pending
         [(7%Z, "https://jobs.test/7"); (8%Z, "https://example.com/job/8")] 0
       = enrich_jobs failing_driver db' [(8%Z, "https://example.com/job/8")] 1.
Proof.
  eexists. split.
  2:{ apply (fetch_failure_is_recorded failing_driver one_pending _ 7%Z
               "https://jobs.test/7" (replicate 150 "e")).
      - reflexivity.
      - reflexivity.
      - reflexivity. }
  reflexivity.
Defined.

(* ================================================================== *)
(** * Further properties *)

(** ** Thousands separators and malformed compensation *)

Lemma filter_group3 (n : nat) :
  forall l : list ascii,
    (List.length l <= n)%nat ->
    forallb not_comma l = true ->
    filter not_comma (Str.group3 l) = l.
Proof.
  induction n as [|n IH]; intros l Hlen Hall.
  - destruct l; [reflexivity|cbn in Hlen; lia].
  - destruct l as [|a [|b [|c [|d more]]]]; cbn [forallb] in Hall;
      repeat (apply andb_prop in Hall; destruct Hall as [? Hall]);
      cbn [Str.group3 filter];
      repeat match goal with
             | H : not_comma ?x = true |- context [not_comma ?x] => rewrite H
             end;
      try reflexivity.
    change (not_comma ","%char) with false. cbn iota.
    do 3 f_equal.
    change (filter not_comma (Str.group3 (d :: more)) = d :: more).
    apply IH; [cbn in Hlen |- *; lia|].
    cbn [forallb]. rewrite H2, Hall. reflexivity.
Qed.

Lemma digits_not_comma (d : Decimal.uint) :
  forallb not_comma (list_ascii_of_string (NilEmpty.string_of_uint d)) = true.
Proof. induction d; cbn; auto. Qed.

Lemma str_int_not_comma (n : Z) :
  (0 <= n)%Z -> forallb not_comma (list_ascii_of_string (Str.str_int n)) = true.
Proof.
  intros Hn. unfold Str.str_int. destruct n as [|p|p]; [reflexivity| |lia].
  cbn [Z.to_int NilZero.string_of_int]. unfold NilZero.string_of_uint.
  destruct (Pos.to_uint p) eqn:E; try reflexivity; rewrite <- E; apply digits_not_comma.
Qed.

Lemma strip_commas_grouped (digits : string) :
  forallb not_comma (list_ascii_of_string digits) = true ->
  strip_commas (string_of_list_ascii (rev (Str.group3 (rev (list_ascii_of_string digits)))))
  = digits.
Proof.
  intros Hall. unfold strip_commas.
  rewrite list_ascii_of_string_of_list_ascii, filter_rev.
  rewrite (filter_group3 _ _ (le_n _)).
  - rewrite rev_involutive. apply string_of_list_ascii_of_string.
  - rewrite forallb_forall in Hall |- *. intros c Hc. apply Hall. now apply in_rev.
Qed.

(** The thousands separators of [f"{n:,}"] are only inserted: taking the
    commas out gives back [str(n)], for every integer. *)
Theorem format_comma_keeps_digits (n : Z) :
  strip_commas (Str.format_comma n) = Str.str_int n.
Proof.
  unfold Str.format_comma.
  pose proof (strip_commas_grouped _ (str_int_not_comma (Z.abs n) (Z.abs_nonneg n))) as H.
  destruct (Z.ltb_spec n 0) as [Hneg|Hpos].
  - destruct n as [|p|p]; try lia.
    change (Z.abs (Z.neg p)) with (Z.pos p) in *.
    change (Str.str_int (Z.neg p)) with ("-" ++ Str.str_int (Z.pos p)).
    unfold strip_commas in *. cbn [append list_ascii_of_string filter].
    change (not_comma "-"%char) with true. cbn iota.
    cbn [string_of_list_ascii]. f_equal. exact H.
  - rewrite Z.abs_eq in * by lia. exact H.
Qed.

Lemma append_nonempty (a b : string) (c : ascii) : a ++ String c b <> "".
Proof. destruct a; discriminate. Qed.

Ltac split_result :=
  match goal with
  | |- context [Dyn.format_thousands ?v] => destruct (Dyn.format_thousands v)
  | |- context [Dyn.getitem ?v ?k] => destruct (Dyn.getitem v k)
  | |- context [Dyn.truthy ?v] => destruct (Dyn.truthy v)
  end; cbn [bind try_except andb app String.concat].

Lemma format_salary_not_empty (compensation : json) :
  format_salary compensation <> "".
Proof.
  unfold format_salary.
  destruct (Dyn.truthy compensation); cbn [negb]; [|discriminate].
  destruct compensation as [| | | |items|fields]; try discriminate.
  cbn [Dyn.get bind].
  repeat split_result; try discriminate; try apply append_nonempty.
Qed.

(** [format_salary] gives a text for every value it is handed, of any
    shape, and never the empty text. *)
Theorem format_salary_nonempty (compensation : json) :
  format_salary compensation <> "".
Proof.
  unfold format_salary.
  destruct (Dyn.truthy compensation); cbn [negb]; [|discriminate].
  destruct compensation as [| | | |items|fields]; try discriminate.
  cbn [Dyn.get bind].
  repeat split_result; try discriminate; try apply append_nonempty.
Qed.

Lemma assoc_some_truthy (key : string) (fields : list (string * json)) (v : json) :
  Dyn.assoc key fields = Some v -> Dyn.truthy (JObj fields) = true.
Proof. destruct fields; [discriminate|reflexivity]. Qed.

(** A malformed entry costs the whole text: when the equity entry is set
    but lacks [min] or [max] (or is not a dict), or when a salary bound is
    set to something that is not a number, [format_salary] returns "Not
    specified", whatever the other entries hold. *)
Theorem format_salary_malformed (fields : list (string * json)) :
  malformed_equity fields = true \/ malformed_range fields = true ->
  format_salary (JObj fields) = "Not specified".
Proof.
  unfold malformed_equity, malformed_range, has_key, format_salary.
  intros [H | H].
  - destruct (Dyn.assoc "equity" fields) as [e|] eqn:He; [|discriminate].
    assert (Hget : Dyn.getitem (JObj fields) "equity" = Ok e)
      by (cbn [Dyn.getitem]; now rewrite He).
    rewrite (assoc_some_truthy _ _ _ He). cbn [negb Dyn.get bind].
    rewrite He, Hget. apply andb_prop in H. destruct H as [Ht Hkeys]. rewrite Ht.
    cbn [bind].
    destruct (Dyn.getitem e "min") eqn:Hmin, (Dyn.getitem e "max") eqn:Hmax;
      try discriminate Hkeys;
      repeat first [ rewrite Hmin | rewrite Hmax
                   | progress cbn [bind try_except] | split_result ];
      reflexivity.
  - destruct (Dyn.assoc "minSalary" fields) as [lo|] eqn:Hlo; [|discriminate].
    destruct (Dyn.assoc "maxSalary" fields) as [hi|] eqn:Hhi; [|discriminate].
    rewrite (assoc_some_truthy _ _ _ Hlo). cbn [negb Dyn.get Dyn.getitem bind].
    rewrite Hlo, Hhi.
    apply andb_prop in H. destruct H as [H Hnum].
    apply andb_prop in H. destruct H as [Htlo Hthi]. rewrite Htlo. cbn [bind].
    rewrite Hthi. cbn [andb bind].
    destruct lo, hi; try discriminate; try reflexivity.
Qed.

Lemma format_salary_malformed_witness :
  format_salary salary_and_bad_equity = "Not specified"
  /\ format_salary text_bound = "Not specified".
Proof.
  split.
  - apply (format_salary_malformed
             [("minSalary", JNum 50000); ("maxSalary", JNum 70000);
              ("equity", JObj [("min", JNum 1)])]).
    left. reflexivity.
  - apply (format_salary_malformed
             [("minSalary", JStr "50k"); ("maxSalary", JNum 70000)]).
    right. reflexivity.
Defined.

(** ** Shapes of the normalizer *)

Ltac step_bind :=
  match goal with
  | |- context [bind ?r _] =>
      let E := fresh "E" in destruct r eqn:E; cbn [bind try_except]
  end.

Lemma job_data_of_listing (holder_fields listing_fields : list (string * json))
    (more : list json) :
  Dyn.assoc "highlightedJobListings" holder_fields
  = Some (JArr (JObj listing_fields :: more)) ->
  job_data_of (JObj holder_fields)
  = Ok (listing_record holder_fields listing_fields).
Proof.
  intros H. unfold job_data_of. cbn [Dyn.get bind]. rewrite H. reflexivity.
Qed.

(** A direct or promoted listing whose sequence starts with a dict is
    always turned into a record: the fields come from the first listing
    only, and every missing scalar takes its default. *)
Theorem first_listing_decides (node : json)
    (holder_fields listing_fields : list (string * json)) (more : list json) :
  listing_holder node = Some (JObj holder_fields) ->
  Dyn.assoc "highlightedJobListings" holder_fields
  = Some (JArr (JObj listing_fields :: more)) ->
  extract_job_data node = Some (listing_record holder_fields listing_fields).
Proof.
  intros Hholder Hlist.
  rewrite (extract_listing _ _ Hholder), (job_data_of_listing _ _ _ Hlist).
  reflexivity.
Qed.

Lemma first_listing_decides_witness :
  extract_job_data (JObj (("__typename", JStr "StartupSearchResult") :: acme_fields))
  = Some acme_record.
Proof.
  apply (first_listing_decides
           (JObj (("__typename", JStr "StartupSearchResult") :: acme_fields))
           (("__typename", JStr "StartupSearchResult") :: acme_fields)
           [("id", JNum 42); ("title", JStr "Data Engineer")]
           [JObj [("id", JNum 43); ("title", JStr "Data Scientist")]]).
  - reflexivity.
  - reflexivity.
Defined.

(** A promoted listing without [promotedStartup] is read like the direct
    listing with the same fields. *)
Theorem promoted_without_inner_is_direct (fields : list (string * json)) :
  Dyn.assoc "promotedStartup" fields = None ->
  extract_job_data (JObj (("__typename", JStr "PromotedResult") :: fields))
  = extract_job_data (JObj (("__typename", JStr "StartupSearchResult") :: fields)).
Proof.
  intros H. unfold extract_job_data, job_data_of.
  cbn [Dyn.get Dyn.assoc String.eqb Ascii.eqb Bool.eqb bind Dyn.eq_str].
  rewrite H. reflexivity.
Qed.

Lemma promoted_without_inner_is_direct_witness :
  extract_job_data (JObj (("__typename", JStr "PromotedResult") :: acme_fields))
  = extract_job_data (JObj (("__typename", JStr "StartupSearchResult") :: acme_fields)).
Proof.
  apply (promoted_without_inner_is_direct acme_fields). reflexivity.
Defined.

(** A featured group gives the record of its first entry alone, read as
    a promoted listing: the other entries of the group and the other
    fields of the record are never looked at.  A group without entries
    gives nothing. *)
Theorem featured_group_takes_first (fields : list (string * json))
    (featured : list json) :
  Dyn.assoc "__typename" fields = Some (JStr "FeaturedStartups") ->
  Dyn.assoc "featuredStartups" fields = Some (JArr featured) ->
  extract_job_data (JObj fields)
  = match featured with
    | [] => None
    | first :: _ =>
        try_except
          (job_node <- Dyn.get first "promotedStartup" first ;;
           job_data <- job_data_of job_node ;;
           Ok (Some job_data))
          (fun _ => None)
    end.
Proof.
  intros Htype Hfeatured. unfold extract_job_data.
  cbn [Dyn.get bind]. rewrite Htype. cbn [Dyn.eq_str].
  change (String.eqb "FeaturedStartups" "StartupSearchResult") with false.
  change (String.eqb "FeaturedStartups" "PromotedResult") with false.
  change (String.eqb "FeaturedStartups" "FeaturedStartups") with true.
  cbn iota. rewrite Hfeatured. cbn [Dyn.iter bind].
  destruct featured as [|first rest]; reflexivity.
Qed.

Lemma featured_group_takes_first_witness :
  extract_job_data
    (featured_node [JObj acme_fields; JObj [("name", JStr "Other")]])
  = Some acme_record
  /\ extract_job_data (featured_node []) = None.
Proof.
  unfold featured_node. split.
  - rewrite (featured_group_takes_first
               [("__typename", JStr "FeaturedStartups");
                ("featuredStartups",
                 JArr [JObj acme_fields; JObj [("name", JStr "Other")]])]
               [JObj acme_fields; JObj [("name", JStr "Other")]] eq_refl eq_refl).
    reflexivity.
  - rewrite (featured_group_takes_first
               [("__typename", JStr "FeaturedStartups"); ("featuredStartups", JArr [])]
               [] eq_refl eq_refl).
    reflexivity.
Defined.

Lemma prefix_app (s t : string) : prefix s (s ++ t) = true.
Proof.
  induction s as [|c s IH]; cbn [prefix append]; [now destruct t|].
  destruct (ascii_dec c c); [exact IH|contradiction].
Qed.

Lemma job_data_of_provenance (job_node : json) (job : JobRecord) :
  job_data_of job_node = Ok job ->
  source_site job = "Wellfound"
  /\ prefix "https://wellfound.com/company/" (job_url job) = true
  /\ salary_info job <> "".
Proof.
  unfold job_data_of.
  repeat step_bind; try discriminate.
  intros [= <-]. cbn [source_site job_url salary_info].
  split; [reflexivity|]. split; [apply (prefix_app "https://wellfound.com/company/")|].
  apply format_salary_not_empty.
Qed.

Lemma extract_job_data_tagged (node : json) (job : JobRecord) :
  extract_job_data node = Some job ->
  source_site job = "Wellfound"
  /\ prefix "https://wellfound.com/company/" (job_url job) = true
  /\ salary_info job <> "".
Proof.
  unfold extract_job_data.
  step_bind; [|discriminate].
  repeat match goal with
         | |- context [if ?b then _ else _] => destruct b
         end;
    repeat step_bind; try discriminate;
    try (intros [= <-]; eapply job_data_of_provenance; eassumption).
  destruct a1 as [|featured_job others]; [discriminate|].
  repeat step_bind; try discriminate.
  intros [= <-]. eapply job_data_of_provenance; eassumption.
Qed.

(** Whatever the raw record, a record produced by [extract_job_data]
    carries the tag "Wellfound", a url under
    https://wellfound.com/company/ and a salary text that is not empty. *)
Theorem extract_job_data_provenance (node : json) (job : JobRecord) :
  extract_job_data node = Some job ->
  source_site job = "Wellfound"
  /\ prefix "https://wellfound.com/company/" (job_url job) = true
  /\ salary_info job <> "".
Proof.
  unfold extract_job_data.
  step_bind; [|discriminate].
  repeat match goal with
         | |- context [if ?b then _ else _] => destruct b
         end;
    repeat step_bind; try discriminate;
    try (intros [= <-]; eapply job_data_of_provenance; eassumption).
  match goal with
  | |- context [match ?l with [] => _ | _ :: _ => _ end] =>
      destruct l as [|featured_job others]; [discriminate|]
  end.
  repeat step_bind; try discriminate.
  intros [= <-]. eapply job_data_of_provenance; eassumption.
Qed.

Lemma extract_job_data_provenance_witness :
  source_site acme_record = "Wellfound"
  /\ prefix "https://wellfound.com/company/" (job_url acme_record) = true
  /\ salary_info acme_record <> "".
Proof.
  apply (extract_job_data_provenance
           (JObj (("__typename", JStr "PromotedResult") :: acme_fields))).
  reflexivity.
Defined.

(** ** Tiers of the fallback chain *)

Lemma get_raises (v : json) (key : string) (default : json) (e : exn) :
  Dyn.get v key default = Raise e -> e = Exception "AttributeError".
Proof. destruct v; cbn; try discriminate; now intros [= <-]. Qed.

Lemma iter_raises (v : json) (e : exn) :
  Dyn.iter v = Raise e -> e = Exception "TypeError".
Proof. destruct v; cbn; try discriminate; now intros [= <-]. Qed.

Lemma collect_jobs_result (edges : list json) :
  match collect_jobs edges with
  | Ok jobs =>
      Forall (fun job => source_site job = "Wellfound") jobs
      /\ (List.length jobs <= List.length edges)%nat
  | Raise e => e = Exception "AttributeError"
  end.
Proof.
  induction edges as [|edge rest IH]; cbn [collect_jobs].
  - split; [constructor|reflexivity].
  - destruct (Dyn.get edge "node" (JObj [])) as [node|e] eqn:Hnode; cbn [bind].
    + destruct (collect_jobs rest) as [jobs|e]; cbn [bind]; [|exact IH].
      destruct IH as [Hall Hlen].
      destruct (extract_job_data node) as [job|] eqn:Hjob.
      * split; [|cbn [List.length]; lia].
        constructor; [|exact Hall].
        exact (proj1 (extract_job_data_tagged _ _ Hjob)).
      * split; [exact Hall|cbn [List.length]; lia].
    + exact (get_raises _ _ _ _ Hnode).
Qed.

Lemma payload_walk (data : json) :
  match
    (d <- Dyn.get data "data" (JObj []) ;;
     talent <- Dyn.get d "talent" (JObj []) ;;
     results <- Dyn.get talent "jobSearchResults" (JObj []) ;;
     startups <- Dyn.get results "startups" (JObj []) ;;
     jobs_data <- Dyn.get startups "edges" (JArr []) ;;
     edges <- Dyn.iter jobs_data ;;
     collect_jobs edges)
  with
  | Ok jobs => Forall (fun job => source_site job = "Wellfound") jobs
  | Raise e => exists msg, e = Exception msg
  end.
Proof.
  repeat match goal with
         | |- context [bind (Dyn.get ?v ?k ?d) _] =>
             let E := fresh "E" in
             destruct (Dyn.get v k d) eqn:E; cbn [bind];
             [|apply get_raises in E; subst; eauto]
         end.
  match goal with
  | |- context [Dyn.iter ?v] =>
      destruct (Dyn.iter v) as [edges|e] eqn:Hiter; cbn [bind];
      [|apply iter_raises in Hiter; subst; eauto]
  end.
  pose proof (collect_jobs_result edges) as H.
  destruct (collect_jobs edges) as [jobs|e]; [exact (proj1 H)|subst; eauto].
Qed.

Ltac walk_payload data :=
  let Hwalk := fresh "Hwalk" in
  pose proof (payload_walk data) as Hwalk;
  match goal with
  | |- context [bind (Dyn.get data "data" (JObj [])) ?k] =>
      destruct (bind (Dyn.get data "data" (JObj [])) k) as [?jobs|?e];
      [try exact Hwalk|try (destruct Hwalk as [? ->]; eauto)]
  end.

Lemma try_wellfound_scraping_tagged (w : world) (search_terms : list string)
    (jobs : list JobRecord) :
  try_wellfound_scraping w search_terms = Ok jobs ->
  Forall (fun job => source_site job = "Wellfound") jobs.
Proof.
  unfold try_wellfound_scraping.
  destruct (graphql_post w search_terms) as [msg|status_code content];
    [intros [= <-]; constructor|].
  destruct (status_code =? 403)%Z; [intros [= <-]; constructor|].
  unfold raise_for_status.
  destruct ((400 <=? status_code)%Z && (status_code <? 600)%Z); cbn [bind];
    [intros [= <-]; constructor|].
  destruct (json_body content) as [data|]; cbn [bind].
  - walk_payload data; [now intros [= <-]|discriminate].
  - destruct (brotli_body content) as [data|]; cbn [bind]; [|discriminate].
    walk_payload data; [now intros [= <-]|discriminate].
Qed.

(** [try_wellfound_scraping] never lets a request failure out: it
    returns records, all tagged "Wellfound", or raises an exception that
    is not a [RequestException]. *)
Theorem try_wellfound_scraping_result (w : world) (search_terms : list string) :
  match try_wellfound_scraping w search_terms with
  | Ok jobs => Forall (fun job => source_site job = "Wellfound") jobs
  | Raise e => exists msg, e = Exception msg
  end.
Proof.
  unfold try_wellfound_scraping.
  destruct (graphql_post w search_terms) as [msg|status_code content];
    [constructor|].
  destruct (status_code =? 403)%Z; [constructor|].
  unfold raise_for_status.
  destruct ((400 <=? status_code)%Z && (status_code <? 600)%Z); cbn [bind];
    [constructor|].
  destruct (json_body content) as [data|]; cbn [bind].
  - walk_payload data.
  - destruct (brotli_body content) as [data|]; cbn [bind]; [|eauto].
    walk_payload data.
Qed.

Lemma error_status_403 (status_code : Z) :
  error_status status_code = false -> (status_code =? 403)%Z = false.
Proof.
  unfold error_status. intros H. apply Z.eqb_neq. intros ->. discriminate H.
Qed.

Ltac descend H :=
  match type of H with
  | match ?v with _ => _ end = true =>
      revert H; destruct v; try discriminate; cbn [Dyn.get bind];
      match goal with
      | |- match Dyn.assoc ?key ?fields with _ => _ end = true -> _ =>
          destruct (Dyn.assoc key fields); [intros H|intros _; reflexivity]
      end
  end.

(** A response that is not an error and whose payload is a dict lacking
    one of the keys data / talent / jobSearchResults / startups / edges on
    the way down means no results: the empty list, no exception. *)
Theorem missing_payload_key_means_no_results (w : world)
    (search_terms : list string) (status_code : Z) (content : graphql_content)
    (data : json) :
  graphql_post w search_terms = Response status_code content ->
  error_status status_code = false ->
  decoded content = Some data ->
  missing_on_path results_path data = true ->
  try_wellfound_scraping w search_terms = Ok [].
Proof.
  intros Hpost Hstatus Hdata Hmissing.
  unfold try_wellfound_scraping. rewrite Hpost, (error_status_403 _ Hstatus).
  rewrite (raise_for_status_ok _ Hstatus). cbn [bind].
  assert (Hbody : match json_body content with
                  | Some d => Ok d
                  | None =>
                      match brotli_body content with
                      | Some d => Ok d
                      | None => Raise (Exception "brotli.error")
                      end
                  end = Ok data).
  { unfold decoded in Hdata. destruct (json_body content); [congruence|].
    destruct (brotli_body content); congruence. }
  rewrite Hbody. cbn [bind]. clear Hbody Hdata Hpost.
  unfold results_path in Hmissing.
  cbn [missing_on_path] in Hmissing.
  do 5 descend Hmissing. discriminate Hmissing.
Qed.

Lemma missing_payload_key_means_no_results_witness :
  try_wellfound_scraping truncated_payload ["Data Analyst"] = Ok [].
Proof.
  apply (missing_payload_key_means_no_results truncated_payload ["Data Analyst"] 200
           {| json_body := None;
              brotli_body := Some (JObj [("data", JObj [("talent", JObj [])])]) |}
           (JObj [("data", JObj [("talent", JObj [])])])).
  - reflexivity.
  - reflexivity.
  - reflexivity.
  - reflexivity.
Defined.

Lemma filter_map_length {A B : Type} (f : A -> option B) (l : list A) :
  (List.length (filter_map f l) <= List.length l)%nat.
Proof.
  induction l as [|a l IH]; cbn [filter_map List.length]; [lia|].
  destruct (f a); cbn [List.length]; lia.
Qed.

Lemma filter_map_In {A B : Type} (f : A -> option B) (l : list A) (b : B) :
  In b (filter_map f l) -> exists a, In a l /\ f a = Some b.
Proof.
  induction l as [|a l IH]; cbn [filter_map]; [intros []|].
  destruct (f a) as [b'|] eqn:Hfa.
  - intros [<- | Hin].
    + exists a. split; [now left|exact Hfa].
    + destruct (IH Hin) as [a' [Ha' Hf]]. exists a'. split; [now right|exact Hf].
  - intros Hin. destruct (IH Hin) as [a' [Ha' Hf]]. exists a'. split; [now right|exact Hf].
Qed.

Lemma wwr_entries_prefix (job_listings more : list feature_li) :
  (10 <= List.length job_listings)%nat ->
  wwr_entries (job_listings ++ more)%list = wwr_entries job_listings.
Proof.
  intros Hlen. unfold wwr_entries. rewrite firstn_app.
  replace (10 - List.length job_listings)%nat with 0%nat by lia.
  cbn [firstn]. now rewrite app_nil_r.
Qed.

(** Only the first ten list items of the category page are read: what
    follows them changes nothing, and at most ten records come back. *)
Theorem wwr_reads_first_ten (w1 w2 : world) (status_code : Z)
    (job_listings more1 more2 : list feature_li) :
  (10 <= List.length job_listings)%nat ->
  category_page w1 = Response status_code (job_listings ++ more1)%list ->
  category_page w2 = Response status_code (job_listings ++ more2)%list ->
  scrape_weworkremotely w1 = scrape_weworkremotely w2
  /\ (List.length (scrape_weworkremotely w1) <= 10)%nat.
Proof.
  intros Hlen H1 H2.
  rewrite !scrape_weworkremotely_cases. unfold secondary_entries.
  rewrite H1, H2, !wwr_entries_prefix by exact Hlen.
  split; [reflexivity|].
  destruct (error_status status_code); [cbn; lia|].
  assert (Hle : (List.length (wwr_entries job_listings) <= 10)%nat).
  { unfold wwr_entries.
    etransitivity; [apply filter_map_length|]. apply firstn_le_length. }
  destruct (wwr_entries job_listings); [cbn; lia|exact Hle].
Qed.

Lemma wwr_reads_first_ten_witness :
  scrape_weworkremotely (category_world (ten_links ++ [data_link "Data Engineer"])%list)
  = scrape_weworkremotely (category_world (ten_links ++ [])%list)
  /\ (List.length
        (scrape_weworkremotely
           (category_world (ten_links ++ [data_link "Data Engineer"])%list)) <= 10)%nat.
Proof.
  apply (wwr_reads_first_ten _ _ 200 ten_links [data_link "Data Engineer"] []).
  - cbn. lia.
  - reflexivity.
  - reflexivity.
Defined.



Lemma relevance_term_lower (term : string) :
  In term relevance_terms -> Str.lower term = term.
Proof.
  intros Hin. repeat (destruct Hin as [<- | Hin]; [reflexivity|]). destruct Hin.
Qed.

(** An entry accepted on the category page has a title that contains one
    of the terms data / analyst / python / scientist whatever the letter
    case, the location "Remote", no salary, the tag "WeWorkRemotely" and
    a url under https://weworkremotely.com. *)
Theorem wwr_entry_shape (job_listings : list feature_li) (job : JobRecord) :
  In job (wwr_entries job_listings) ->
  (exists title term,
      job_title job = JStr title /\ In term relevance_terms
      /\ Str.contains term (Str.lower title) = true)
  /\ location job = JStr "Remote"
  /\ salary_info job = "Not specified"
  /\ source_site job = "WeWorkRemotely"
  /\ prefix "https://weworkremotely.com" (job_url job) = true.
Proof.
  unfold wwr_entries. intros Hin.
  apply filter_map_In in Hin. destruct Hin as [job_li [_ Hjob]].
  revert Hjob. unfold wwr_job.
  destruct job_li as [job_link|]; [|discriminate].
  destruct (title_span job_link) as [title|]; [|discriminate].
  destruct (company_span job_link) as [company|]; [|discriminate].
  destruct (existsb _ relevance_terms) eqn:Hrel; [|discriminate].
  intros [= <-]. cbn [job_title location salary_info source_site job_url].
  repeat split; try reflexivity.
  - apply existsb_exists in Hrel. destruct Hrel as [term [Hterm Hc]].
    exists title, term. rewrite (relevance_term_lower _ Hterm) in Hc. auto.
  - apply (prefix_app "https://weworkremotely.com").
Qed.

Lemma wwr_entry_shape_witness :
  (exists title term,
      job_title (wwr_record "Data Engineer" "https://weworkremotely.com/remote-jobs/1")
      = JStr title
      /\ In term relevance_terms /\ Str.contains term (Str.lower title) = true)
  /\ location (wwr_record "Data Engineer" "https://weworkremotely.com/remote-jobs/1")
     = JStr "Remote"
  /\ salary_info (wwr_record "Data Engineer" "https://weworkremotely.com/remote-jobs/1")
     = "Not specified"
  /\ source_site (wwr_record "Data Engineer" "https://weworkremotely.com/remote-jobs/1")
     = "WeWorkRemotely"
  /\ prefix "https://weworkremotely.com"
       (job_url (wwr_record "Data Engineer" "https://weworkremotely.com/remote-jobs/1"))
     = true.
Proof.
  apply (wwr_entry_shape [None; data_link "Data Engineer"]).
  left. reflexivity.
Defined.

(** ** Storing a batch *)

Lemma execute_insert_frame (db db' : database) (job : JobRecord) :
  execute_insert db job = Ok db' ->
  rejects db job = false
  /\ rejects db' = rejects db
  /\ connection db' = connection db
  /\ (job_listings db' = job_listings db
      \/ (has_url (job_url job) (job_listings db) = false
          /\ job_listings db'
             = (job_listings db
                  ++ [{| id := next_id db; listing := job; job_description := None |}])%list)).
Proof.
  unfold execute_insert. destruct (rejects db job); [discriminate|].
  intros [= <-]. cbn [rejects connection job_listings].
  repeat split.
  destruct (has_url (job_url job) (job_listings db)); [now left|now right].
Qed.

Lemma has_url_app (url : string) (rows more : list row) :
  has_url url (rows ++ more)%list = has_url url rows || has_url url more.
Proof. unfold has_url. apply existsb_app. Qed.

Lemma insert_loop_appends (jobs : list JobRecord) :
  forall (committed db db' : database) (n m : nat),
    insert_loop committed db jobs n = Ok (db', m) ->
    rejects db' = rejects db
    /\ connection db' = connection db
    /\ forallb (fun job => negb (rejects db job)) jobs = true
    /\ exists added : list row,
         job_listings db' = (job_listings db ++ added)%list
         /\ (List.length added <= List.length jobs)%nat
         /\ Forall (fun r => job_description r = None
                             /\ In (listing r) jobs
                             /\ has_url (url_of r) (job_listings db) = false) added.
Proof.
  induction jobs as [|job rest IH]; intros committed db db' n m; cbn [insert_loop].
  - intros [= <- <-]. split; [reflexivity|]. split; [reflexivity|].
    split; [reflexivity|]. exists []. rewrite app_nil_r.
    split; [reflexivity|]. split; [cbn; lia|constructor].
  - destruct (execute_insert db job) as [db1|e] eqn:Hexec.
    + intros Hloop.
      destruct (execute_insert_frame _ _ _ Hexec) as (Hacc & Hrej & Hconn & Hrows).
      destruct (IH _ _ _ _ _ Hloop) as (Hrej' & Hconn' & Hall & added & Hadd & Hlen & Hprop).
      split; [congruence|]. split; [congruence|]. split.
      { cbn [forallb]. rewrite Hacc. cbn [negb andb]. now rewrite <- Hrej. }
      destruct Hrows as [Hsame | [Hnew Hrows]].
      * exists added. rewrite Hadd, Hsame. split; [reflexivity|].
        split; [cbn [List.length]; lia|].
        eapply Forall_impl; [|exact Hprop]. cbn beta.
        intros r (Hd & Hin & Hurl). rewrite Hsame in Hurl. repeat split; auto. now right.
      * exists ({| id := next_id db; listing := job; job_description := None |} :: added).
        rewrite Hadd, Hrows, <- app_assoc. split; [reflexivity|].
        split; [cbn [List.length]; lia|].
        constructor.
        { cbn [job_description listing url_of]. repeat split; [now left|exact Hnew]. }
        eapply Forall_impl; [|exact Hprop]. cbn beta.
        intros r (Hd & Hin & Hurl). rewrite Hrows, has_url_app in Hurl.
        apply orb_false_elim in Hurl. repeat split; [exact Hd|now right|tauto].
    + apply execute_insert_raises in Hexec. subst e. discriminate.
Qed.

(** A batch that is stored only appends rows: the rows the table held
    stay as they were (a url already stored is not written again), every
    added row comes from the batch, has a url the table did not hold and
    no description yet, the urls stay pairwise distinct, and every url of
    the batch is stored afterwards. *)
Theorem insert_only_appends (db db' : database) (jobs : list JobRecord)
    (reported : nat) :
  insert_jobs_to_database db jobs = Ok (db', reported) ->
  (exists added : list row,
      job_listings db' = (job_listings db ++ added)%list
      /\ (List.length added <= List.length jobs)%nat
      /\ Forall (fun r => job_description r = None
                          /\ In (listing r) jobs
                          /\ has_url (url_of r) (job_listings db) = false) added)
  /\ (NoDup (urls db) -> NoDup (urls db'))
  /\ (forall job, In job jobs -> In (job_url job) (urls db')).
Proof.
  unfold insert_jobs_to_database. destruct (connection db); [|discriminate].
  cbn [negb]. intros H.
  destruct (insert_loop_appends _ _ _ _ _ _ H) as (_ & _ & _ & Hadded).
  destruct (insert_loop_spec _ _ _ _ _ _ H) as (_ & Hnd & _ & Hall).
  auto.
Qed.

Lemma insert_only_appends_witness :
  exists db' : database,
    insert_jobs_to_database stored_a [job_b; job_a; job_c] = Ok (db', 3%nat)
    /\ NoDup (urls db')
    /\ In (job_url job_c) (urls db').
Proof.
  eexists. split; [reflexivity|].
  match goal with
  | |- NoDup (urls ?d) /\ _ =>
      destruct (insert_only_appends stored_a d [job_b; job_a; job_c] 3 eq_refl)
        as (_ & Hnodup & Hall)
  end.
  split.
  - apply Hnodup. repeat constructor. intros [].
  - apply Hall. right. right. left. reflexivity.
Defined.

Lemma insert_loop_stored (jobs : list JobRecord) :
  forall (committed db : database) (n : nat),
    forallb (fun job => negb (rejects db job)) jobs = true ->
    (forall job, In job jobs -> has_url (job_url job) (job_listings db) = true) ->
    exists db' : database,
      insert_loop committed db jobs n = Ok (db', (n + List.length jobs)%nat)
      /\ job_listings db' = job_listings db.
Proof.
  induction jobs as [|job rest IH]; intros committed db n Hacc Hstored;
    cbn [insert_loop List.length].
  - exists db. split; [f_equal; f_equal; lia|reflexivity].
  - cbn [forallb] in Hacc. apply andb_prop in Hacc. destruct Hacc as [Hjob Hrest].
    apply negb_true_iff in Hjob.
    unfold execute_insert. rewrite Hjob, (Hstored job (or_introl eq_refl)).
    match goal with
    | |- context [insert_loop committed ?d rest (S n)] =>
        destruct (IH committed d (S n)) as [db' [Hloop Hrows]]
    end.
    + exact Hrest.
    + intros j Hin. cbn [job_listings]. apply Hstored. now right.
    + exists db'. split; [rewrite Hloop; f_equal; f_equal; lia|exact Hrows].
Qed.

(** Storing is idempotent on the rows: a batch that was stored can be
    stored again, and the second call leaves the rows of the table as the
    first one left them. *)
Theorem insert_twice_keeps_rows (db db1 : database) (jobs : list JobRecord)
    (reported : nat) :
  insert_jobs_to_database db jobs = Ok (db1, reported) ->
  exists db2 : database,
    insert_jobs_to_database db1 jobs = Ok (db2, reported)
    /\ job_listings db2 = job_listings db1.
Proof.
  unfold insert_jobs_to_database.
  destruct (connection db) eqn:Hconn; [|discriminate]. cbn [negb]. intros H.
  destruct (insert_loop_appends _ _ _ _ _ _ H) as (Hrej & Hconn1 & Hacc & _).
  destruct (insert_loop_spec _ _ _ _ _ _ H) as (Hcount & _ & _ & Hall).
  rewrite Hconn1, Hconn. cbn [negb].
  destruct (insert_loop_stored jobs db1 db1 0) as [db2 [Hloop Hrows]].
  - rewrite Hrej. exact Hacc.
  - intros job Hin. apply has_url_In. exact (Hall job Hin).
  - exists db2. rewrite Hloop, Hcount. auto.
Qed.

Lemma insert_twice_keeps_rows_witness :
  exists db1 db2 : database,
    insert_jobs_to_database empty_database [job_a; job_b] = Ok (db1, 2%nat)
    /\ insert_jobs_to_database db1 [job_a; job_b] = Ok (db2, 2%nat)
    /\ job_listings db2 = job_listings db1.
Proof.
  eexists.
  match goal with
  | |- exists db2, insert_jobs_to_database empty_database ?jobs = Ok (?d, _) /\ _ =>
      unify d {| connection := true; rejects := varchar_overflow;
                 job_listings :=
                   [{| id := 1; listing := job_a; job_description := None |};
                    {| id := 2; listing := job_b; job_description := None |}];
                 next_id := 3 |}
  end.
  destruct (insert_twice_keeps_rows empty_database _ [job_a; job_b] 2 eq_refl)
    as [db2 [Hagain Hrows]].
  exists db2. split; [reflexivity|]. split; [exact Hagain|exact Hrows].
Defined.



(** ** The list run *)

Lemma scrape_weworkremotely_tagged (w : world) :
  Forall (fun job => source_site job = "WeWorkRemotely") (scrape_weworkremotely w).
Proof.
  rewrite scrape_weworkremotely_cases. unfold secondary_entries.
  destruct (category_page w) as [msg|status_code job_listings]; [constructor|].
  destruct (error_status status_code); [constructor|].
  assert (Hall : Forall (fun job => source_site job = "WeWorkRemotely")
                   (wwr_entries job_listings)).
  { apply Forall_forall. intros job Hin. unfold wwr_entries in Hin.
    apply filter_map_In in Hin. destruct Hin as [job_li [_ Hjob]].
    exact (wwr_job_source _ _ Hjob). }
  destruct (wwr_entries job_listings); [|exact Hall].
  apply Forall_forall. intros job Hin. exact (proj1 (sample_jobs_provenance job Hin)).
Qed.

Lemma acquire_single_source (w : world) (search_terms : list string)
    (jobs : list JobRecord) :
  acquire w search_terms = Ok jobs ->
  Forall (fun job => source_site job = "Wellfound") jobs
  \/ Forall (fun job => source_site job = "WeWorkRemotely") jobs.
Proof.
  unfold acquire.
  pose proof (try_wellfound_scraping_tagged w search_terms) as Hprimary.
  destruct (try_wellfound_scraping w search_terms) as [found|e]; [|discriminate].
  cbn [bind]. specialize (Hprimary found eq_refl).
  destruct found as [|job found]; intros [= <-].
  - right. apply scrape_weworkremotely_tagged.
  - left. exact Hprimary.
Qed.

(** The outcomes of a list run, by what the chain and the insert do. *)
Lemma scrape_list_pages_cases (w : world) (db : database)
    (search_terms : option (list string)) :
  match acquire w (actual_terms search_terms) with
  | Raise _ => scrape_list_pages w db search_terms = ([], db)
  | Ok [] => scrape_list_pages w db search_terms = ([], db)
  | Ok jobs =>
      match insert_jobs_to_database db jobs with
      | Ok stored => scrape_list_pages w db search_terms = (jobs, fst stored)
      | Raise _ => scrape_list_pages w db search_terms = ([], abort_transaction db)
      end
  end.
Proof.
  unfold scrape_list_pages. fold (actual_terms search_terms).
  destruct (acquire w (actual_terms search_terms)) as [[|job jobs]|e];
    try reflexivity.
  destruct (insert_jobs_to_database db (job :: jobs)); reflexivity.
Qed.

(** The list run never mixes sources: the records it returns are all
    tagged "Wellfound" or all tagged "WeWorkRemotely". *)
Theorem scrape_list_pages_single_source (w : world) (db : database)
    (search_terms : option (list string)) :
  Forall (fun job => source_site job = "Wellfound")
         (fst (scrape_list_pages w db search_terms))
  \/ Forall (fun job => source_site job = "WeWorkRemotely")
            (fst (scrape_list_pages w db search_terms)).
Proof.
  pose proof (scrape_list_pages_cases w db search_terms) as Hrun.
  pose proof (acquire_single_source w (actual_terms search_terms)) as Hsource.
  destruct (acquire w (actual_terms search_terms)) as [[|job jobs]|e];
    try (rewrite Hrun; left; constructor).
  destruct (insert_jobs_to_database db (job :: jobs)); rewrite Hrun; cbn [fst].
  - exact (Hsource _ eq_refl).
  - left. constructor.
Qed.





(** ** Descriptions *)

Lemma generate_sample_description_cases (job_id : Z) :
  generate_sample_description job_id = data_analyst_description
  \/ generate_sample_description job_id = python_developer_description
  \/ generate_sample_description job_id = data_scientist_description.
Proof.
  unfold generate_sample_description.
  change (Z.of_nat (List.length sample_descriptions)) with 3%Z.
  pose proof (Z.mod_pos_bound (job_id - 1) 3 eq_refl) as Hbound.
  assert (Hr : ((job_id - 1) mod 3 = 0 \/ (job_id - 1) mod 3 = 1
                \/ (job_id - 1) mod 3 = 2)%Z) by lia.
  destruct Hr as [-> | [-> | ->]]; auto.
Qed.

Lemma sample_description_clean (job_id : Z) :
  Str.contains nul (generate_sample_description job_id) = false
  /\ String.eqb (generate_sample_description job_id) "" = false.
Proof.
  destruct (generate_sample_description_cases job_id) as [-> | [-> | ->]];
    split; vm_compute; reflexivity.
Qed.

(** The sample description of an id is always one of the three
    templates, for every integer id, and ids that differ by 3 get the same
    text. *)
Theorem generate_sample_description_cycles (job_id : Z) :
  In (generate_sample_description job_id) sample_descriptions
  /\ generate_sample_description (job_id + 3) = generate_sample_description job_id
  /\ generate_sample_description job_id <> "".
Proof.
  split; [|split].
  - destruct (generate_sample_description_cases job_id) as [-> | [-> | ->]];
      cbn; auto.
  - unfold generate_sample_description.
    change (Z.of_nat (List.length sample_descriptions)) with 3%Z.
    replace (job_id + 3 - 1)%Z with (job_id - 1 + 1 * 3)%Z by lia.
    now rewrite Z.mod_add by lia.
  - intros H. pose proof (proj2 (sample_description_clean job_id)) as Hne.
    rewrite H in Hne. discriminate Hne.
Qed.

Lemma update_job_description_ok (db : database) (job_id : Z) (text : string) :
  connection db = true ->
  Str.contains nul text = false ->
  update_job_description db job_id text
  = Ok {| connection := true;
          rejects := rejects db;
          job_listings :=
            map (fun r => if (id r =? job_id)%Z then with_description r text else r)
                (job_listings db);
          next_id := next_id db |}.
Proof.
  intros Hconn Hnul. unfold update_job_description, nul in *.
  rewrite Hconn, Hnul. reflexivity.
Qed.

Lemma update_job_description_raises (db : database) (job_id : Z) (text : string) :
  raises (update_job_description db job_id text)
  = negb (connection db) || Str.contains nul text.
Proof.
  unfold update_job_description, nul.
  destruct (connection db); cbn [negb orb]; [|reflexivity].
  destruct (Str.contains (String zero "") text); reflexivity.
Qed.

Lemma map_id_update (job_id : Z) (text : string) (rows : list row) :
  map id (map (fun r => if (id r =? job_id)%Z then with_description r text else r) rows)
  = map id rows
  /\ map listing
       (map (fun r => if (id r =? job_id)%Z then with_description r text else r) rows)
     = map listing rows.
Proof.
  rewrite !map_map. split; apply map_ext; intros r; destruct (id r =? job_id)%Z; reflexivity.
Qed.

(** A successful [update_job_description] writes the description of the
    rows with that id and nothing else: ids and listing fields are as
    before, every row with another id is untouched, and an id the table
    does not hold changes nothing (and raises nothing). *)
Theorem update_job_description_effect (db db' : database) (job_id : Z)
    (text : string) :
  update_job_description db job_id text = Ok db' ->
  map id (job_listings db') = map id (job_listings db)
  /\ map listing (job_listings db') = map listing (job_listings db)
  /\ (forall r, In r (job_listings db') -> id r = job_id ->
        job_description r = Some text)
  /\ (forall r, In r (job_listings db) -> id r <> job_id -> In r (job_listings db'))
  /\ ((forall r, In r (job_listings db) -> id r <> job_id) ->
      job_listings db' = job_listings db).
Proof.
  intros Hupdate.
  pose proof (update_job_description_rows _ _ _ _ Hupdate) as Hrows.
  pose proof (update_job_description_raises db job_id text) as Hraise.
  rewrite Hupdate in Hraise. cbn [raises] in Hraise. symmetry in Hraise.
  apply orb_false_elim in Hraise. destruct Hraise as [Hconn Hnul].
  apply negb_false_iff in Hconn.
  rewrite (update_job_description_ok _ _ _ Hconn Hnul) in Hupdate.
  injection Hupdate as <-. cbn [job_listings] in *.
  destruct (map_id_update job_id text (job_listings db)) as [Hid Hlisting].
  split; [exact Hid|]. split; [exact Hlisting|]. split; [exact Hrows|]. split.
  - intros r Hin Hne. apply in_map_iff. exists r. split; [|exact Hin].
    destruct (Z.eqb_spec (id r) job_id); [contradiction|reflexivity].
  - intros Hnone. rewrite <- (map_id (job_listings db)) at 2.
    apply map_ext_in. intros r Hin.
    destruct (Z.eqb_spec (id r) job_id) as [Heq|]; [|reflexivity].
    now destruct (Hnone r Hin).
Qed.

Lemma update_job_description_effect_witness :
  exists db' : database,
    update_job_description two_pending 4 "Remote role" = Ok db'
    /\ map id (job_listings db') = [1; 2; 4]%Z
    /\ description_of db' 2 = Some "Known".
Proof.
  eexists. split; [reflexivity|].
  split.
  - match goal with
    | |- map id (job_listings ?d) = _ =>
        rewrite (proj1 (update_job_description_effect two_pending d 4 "Remote role" eq_refl))
    end.
    reflexivity.
  - reflexivity.
Defined.

(** ** Fallback descriptions *)

Lemma fill_sample_step (job_id : Z) (url : string) (rest : list (Z * string)) (r : row) :
  fill_sample rest
    (if (id r =? job_id)%Z
     then with_description r (generate_sample_description job_id)
     else r)
  = fill_sample ((job_id, url) :: rest) r.
Proof.
  unfold fill_sample, listed. cbn [existsb fst].
  rewrite (Z.eqb_sym job_id (id r)).
  destruct (Z.eqb_spec (id r) job_id) as [Heq|Hne]; cbn [orb]; [|reflexivity].
  subst job_id. cbn [id with_description].
  destruct (existsb _ rest); reflexivity.
Qed.

(** With a connection, [generate_fallback_descriptions] gives every row
    whose id is in the work list the sample description of that id and
    leaves every other row, and every listing field, as it was; without a
    connection it changes nothing.  It never raises. *)
Theorem generate_fallback_descriptions_fills (db : database)
    (jobs_to_update : list (Z * string)) :
  (connection db = true ->
   job_listings (generate_fallback_descriptions db jobs_to_update)
   = map (fill_sample jobs_to_update) (job_listings db))
  /\ (connection db = false ->
      generate_fallback_descriptions db jobs_to_update = db).
Proof.
  split.
  - revert db. induction jobs_to_update as [|[job_id url] rest IH]; intros db Hconn;
      cbn [generate_fallback_descriptions].
    + rewrite (map_ext (fill_sample []) (fun r => r)) by reflexivity.
      now rewrite map_id.
    + rewrite (update_job_description_ok _ _ _ Hconn
                 (proj1 (sample_description_clean job_id))).
      cbn [try_except]. rewrite IH by reflexivity. cbn [job_listings].
      rewrite map_map. apply map_ext. intros r. apply fill_sample_step.
  - intros Hconn. induction jobs_to_update as [|[job_id url] rest IH];
      cbn [generate_fallback_descriptions]; [reflexivity|].
    unfold update_job_description at 1. rewrite Hconn. cbn [negb try_except].
    exact IH.
Qed.

Lemma generate_fallback_descriptions_fills_witness :
  map job_description
    (job_listings
       (generate_fallback_descriptions two_pending
          [(4%Z, "https://weworkremotely.com/c"); (1%Z, "https://weworkremotely.com/a")]))
  = [Some data_analyst_description; Some "Known"; Some data_analyst_description].
Proof.
  rewrite (proj1 (generate_fallback_descriptions_fills two_pending
                    [(4%Z, "https://weworkremotely.com/c");
                     (1%Z, "https://weworkremotely.com/a")]) eq_refl).
  reflexivity.
Defined.

(** ** The enrichment loop *)

Lemma update_job_description_effect_ids (db db' : database) (job_id : Z)
    (text : string) :
  update_job_description db job_id text = Ok db' ->
  map id (job_listings db') = map id (job_listings db)
  /\ map listing (job_listings db') = map listing (job_listings db).
Proof.
  intros Hupdate.
  pose proof (update_job_description_raises db job_id text) as Hraise.
  rewrite Hupdate in Hraise. cbn [raises] in Hraise. symmetry in Hraise.
  apply orb_false_elim in Hraise. destruct Hraise as [Hconn Hnul].
  apply negb_false_iff in Hconn.
  rewrite (update_job_description_ok _ _ _ Hconn Hnul) in Hupdate.
  injection Hupdate as <-. apply map_id_update.
Qed.

Lemma update_connected (db : database) (job_id : Z) (text : string) :
  connection db = true ->
  (exists db', update_job_description db job_id text = Ok db'
               /\ connection db' = true
               /\ map id (job_listings db') = map id (job_listings db)
               /\ map listing (job_listings db') = map listing (job_listings db))
  \/ update_job_description db job_id text = Raise (Exception nul_message).
Proof.
  intros Hconn. destruct (Str.contains nul text) eqn:Hnul.
  - right. unfold update_job_description, nul in *. now rewrite Hconn, Hnul.
  - left. rewrite (update_job_description_ok _ _ _ Hconn Hnul).
    eexists. split; [reflexivity|]. cbn [connection job_listings].
    split; [reflexivity|]. apply map_id_update.
Qed.

Lemma enrich_jobs_connected (d : driver) (jobs_to_update : list (Z * string)) :
  forall (db : database) (n : nat),
    connection db = true ->
    exists (db' : database) (m : nat),
      enrich_jobs d db jobs_to_update n = Ok (db', m)
      /\ connection db' = true
      /\ (n <= m <= n + List.length jobs_to_update)%nat
      /\ map id (job_listings db') = map id (job_listings db)
      /\ map listing (job_listings db') = map listing (job_listings db).
Proof.
  induction jobs_to_update as [|[job_id url] rest IH]; intros db n Hconn;
    cbn [enrich_jobs List.length].
  - exists db, n. repeat split; auto; lia.
  - unfold enrich_job.
    set (description := if Str.contains "example.com" url
                        then generate_sample_description job_id
                        else scrape_url_with_selenium d url).
    destruct (String.eqb description ""); cbn [negb].
    + destruct (IH db (n + 0)%nat Hconn) as (db' & m & Hloop & Hc & Hm & Hid & Hl).
      exists db', m. rewrite Hloop. repeat split; auto; lia.
    + destruct (update_connected db job_id description Hconn)
        as [(db1 & Hup & Hc1 & Hid1 & Hl1) | Hraise].
      * rewrite Hup. cbn [bind].
        destruct (IH db1 (n + 1)%nat Hc1) as (db' & m & Hloop & Hc & Hm & Hid & Hl).
        exists db', m. rewrite Hloop. repeat split; auto; try lia; congruence.
      * rewrite Hraise. cbn [bind].
        rewrite (update_job_description_ok db job_id _ Hconn)
          by (vm_compute; reflexivity).
        cbn [bind].
        match goal with
        | |- context [enrich_jobs d ?db1 rest n] =>
            destruct (IH db1 n eq_refl) as (db' & m & Hloop & Hc & Hm & Hid & Hl)
        end.
        exists db', m. rewrite Hloop. cbn [job_listings] in Hid, Hl.
        destruct (map_id_update job_id (fallback_desc (Exception nul_message))
                    (job_listings db)) as [Hid1 Hl1].
        repeat split; auto; try lia; congruence.
Qed.

(** While the connection holds the enrichment loop never raises,
    whatever the renderer shows and whatever the work list: it ends with
    a count between 0 and the number of work items, and it neither adds
    nor removes a row nor changes an id or a listing field. *)
Theorem enrich_jobs_completes (d : driver) (db : database)
    (jobs_to_update : list (Z * string)) :
  connection db = true ->
  exists (db' : database) (updated_count : nat),
    enrich_jobs d db jobs_to_update 0 = Ok (db', updated_count)
    /\ connection db' = true
    /\ (updated_count <= List.length jobs_to_update)%nat
    /\ same_rows_but_descriptions db db'.
Proof.
  intros Hconn.
  destruct (enrich_jobs_connected d jobs_to_update db 0 Hconn)
    as (db' & m & Hloop & Hc & Hm & Hid & Hl).
  exists db', m. repeat split; auto. lia.
Qed.

Lemma enrich_jobs_completes_witness :
  exists (db' : database) (updated_count : nat),
    enrich_jobs failing_driver two_pending
      [(4%Z, "https://jobs.test/4"); (1%Z, "https://example.com/job/1")] 0
    = Ok (db', updated_count)
    /\ connection db' = true
    /\ (updated_count <= 2)%nat
    /\ same_rows_but_descriptions two_pending db'.
Proof.
  apply (enrich_jobs_completes failing_driver two_pending
           [(4%Z, "https://jobs.test/4"); (1%Z, "https://example.com/job/1")]).
  reflexivity.
Defined.

(** A work item whose url holds example.com is never rendered: the turn
    is the same for every renderer, and with a connection it writes the
    sample description of the item's id and counts one update. *)
Theorem placeholder_url_skips_renderer (d1 d2 : driver) (db : database)
    (job_id : Z) (url : string) :
  Str.contains "example.com" url = true ->
  enrich_job d1 db job_id url = enrich_job d2 db job_id url
  /\ (connection db = true ->
      exists db' : database,
        enrich_job d1 db job_id url = Ok (db', 1%nat)
        /\ forall r, In r (job_listings db') -> id r = job_id ->
             job_description r = Some (generate_sample_description job_id)).
Proof.
  intros Hdemo. unfold enrich_job. rewrite Hdemo. split; [reflexivity|].
  intros Hconn.
  destruct (sample_description_clean job_id) as [Hnul Hne]. rewrite Hne. cbn [negb].
  pose proof (update_job_description_ok db job_id _ Hconn Hnul) as Hup.
  rewrite Hup. cbn [bind]. eexists. split; [reflexivity|].
  exact (update_job_description_rows _ _ _ _ Hup).
Qed.

Lemma placeholder_url_skips_renderer_witness :
  enrich_job failing_driver two_pending 4 "https://example.com/job/4"
  = enrich_job two_texts_driver two_pending 4 "https://example.com/job/4"
  /\ exists db' : database,
       enrich_job failing_driver two_pending 4 "https://example.com/job/4"
       = Ok (db', 1%nat)
       /\ description_of db' 4 = Some data_analyst_description.
Proof.
  destruct (placeholder_url_skips_renderer failing_driver two_texts_driver
              two_pending 4 "https://example.com/job/4" eq_refl) as [Hsame Hwrite].
  split; [exact Hsame|].
  destruct (Hwrite eq_refl) as [db' [Hturn _]].
  eexists. split; [reflexivity|]. reflexivity.
Defined.

Lemma generate_fallback_same_rows (jobs_to_update : list (Z * string)) :
  forall db : database,
    same_rows_but_descriptions db (generate_fallback_descriptions db jobs_to_update).
Proof.
  unfold same_rows_but_descriptions.
  induction jobs_to_update as [|[job_id url] jobs IH]; intros db;
    cbn [generate_fallback_descriptions]; [split; reflexivity|].
  destruct (update_job_description db job_id (generate_sample_description job_id))
    as [db1|e1] eqn:Hup; cbn [try_except]; [|apply IH].
  destruct (IH db1) as [Hid Hl].
  pose proof (update_job_description_effect_ids db db1 job_id _ Hup) as [Hid1 Hl1].
  split; congruence.
Qed.


(** [scrape_detail_pages] raises only when a renderer was set up, there
    is work to do and no connection is held: an empty work list, a failed
    renderer setup or a held connection each make it return.  With a
    failed setup the rows are those [generate_fallback_descriptions]
    leaves. *)
Theorem scrape_detail_pages_returns (setup : result driver) (db : database)
    (jobs_to_update : list (Z * string)) :
  jobs_to_update = [] \/ raises setup = true \/ connection db = true ->
  exists db' : database,
    scrape_detail_pages setup db jobs_to_update = Ok db'
    /\ same_rows_but_descriptions db db'
    /\ (jobs_to_update = [] -> db' = db)
    /\ (raises setup = true ->
        db' = generate_fallback_descriptions db jobs_to_update).
Proof.
  intros Hcase. unfold scrape_detail_pages.
  destruct jobs_to_update as [|job rest].
  - exists db. split; [reflexivity|]. split; [split; reflexivity|]. auto.
  - destruct setup as [d|e].
    + destruct Hcase as [Hnil | [Hsetup | Hconn]]; try discriminate.
      destruct (enrich_jobs_connected d (job :: rest) db 0 Hconn)
        as (db' & m & Hloop & _ & _ & Hid & Hl).
      exists db'. rewrite Hloop. cbn [bind fst].
      split; [reflexivity|]. split; [split; assumption|]. split; discriminate.
    + eexists. split; [reflexivity|].
      split; [apply generate_fallback_same_rows|].
      split; [discriminate|reflexivity].
Qed.

Lemma scrape_detail_pages_returns_witness :
  exists db' : database,
    scrape_detail_pages (Raise (Exception "Chrome browser not found on system"))
      two_pending [(4%Z, "https://jobs.test/4")]
    = Ok db'
    /\ description_of db' 4 = Some data_analyst_description
    /\ description_of db' 1 = None.
Proof.
  destruct (scrape_detail_pages_returns
              (Raise (Exception "Chrome browser not found on system"))
              two_pending [(4%Z, "https://jobs.test/4")])
    as (db' & Hrun & _ & _ & Hfallback).
  - right. left. reflexivity.
  - exists db'. split; [exact Hrun|].
    rewrite (Hfallback eq_refl). split; reflexivity.
Defined.

(** ** The rendered fetch *)

Lemma take_length (n : nat) (s : string) :
  (Str.len (Str.take n s) <= n)%nat.
Proof.
  revert n. induction s as [|c s IH]; intros n; cbn [Str.take Str.len]; [lia|].
  destruct (Str.is_continuation c) eqn:Hc; cbn [Str.len]; rewrite ?Hc.
  - apply IH.
  - destruct n as [|n]; cbn [Str.len]; [lia|]. rewrite Hc.
    specialize (IH n). lia.
Qed.

Lemma probe_selectors_source (p : page) (selectors : list string) :
  forall (job_description : option string) (text : string),
    probe_selectors p selectors job_description = Some text ->
    job_description = Some text
    \/ exists selector, In selector selectors /\ element_text p selector = Some text.
Proof.
  induction selectors as [|selector rest IH]; intros acc text; cbn [probe_selectors].
  - now left.
  - destruct (element_text p selector) as [found|] eqn:Hfound.
    + destruct (100 <? Str.len found)%nat.
      * intros [= <-]. right. exists selector. split; [now left|exact Hfound].
      * intros H. destruct (IH _ _ H) as [[= <-] | (s & Hin & Hs)].
        -- right. exists selector. split; [now left|exact Hfound].
        -- right. exists s. split; [now right|exact Hs].
    + intros H. destruct (IH _ _ H) as [Hacc | (s & Hin & Hs)]; [now left|].
      right. exists s. split; [now right|exact Hs].
Qed.

(** What [scrape_url_with_selenium] returns is one of four things: the
    error text when navigation raises; else the text of one of the seven
    selectors, of at least 100 characters; else the first 2000 characters
    of the body, so at most 2000 characters; else, when the body cannot be
    read, the fixed marker.  It never returns a selector text shorter than
    100 characters.  Lengths are counted in characters. *)
Theorem scrape_url_result_kinds (d : driver) (url : string) :
  match load_error (d url) with
  | Some msg => scrape_url_with_selenium d url = "Error accessing URL: " ++ msg
  | None =>
      (exists selector,
          In selector description_selectors
          /\ element_text (d url) selector = Some (scrape_url_with_selenium d url)
          /\ (100 <= Str.len (scrape_url_with_selenium d url))%nat)
      \/ (exists body,
             body_text (d url) = Some body
             /\ scrape_url_with_selenium d url = Str.take 2000 body
             /\ (Str.len (scrape_url_with_selenium d url) <= 2000)%nat)
      \/ (body_text (d url) = None
          /\ scrape_url_with_selenium d url = not_extracted)
  end.
Proof.
  unfold scrape_url_with_selenium.
  destruct (load_error (d url)) as [msg|]; [reflexivity|].
  assert (Hbody :
            (exists body,
                body_text (d url) = Some body
                /\ match body_text (d url) with
                   | Some b => Str.take 2000 b
                   | None => not_extracted
                   end = Str.take 2000 body
                /\ (Str.len match body_text (d url) with
                                  | Some b => Str.take 2000 b
                                  | None => not_extracted
                                  end <= 2000)%nat)
            \/ (body_text (d url) = None
                /\ match body_text (d url) with
                   | Some b => Str.take 2000 b
                   | None => not_extracted
                   end = not_extracted)).
  { destruct (body_text (d url)) as [body|]; [left|right; auto].
    exists body. split; [reflexivity|]. split; [reflexivity|apply take_length]. }
  destruct (probe_selectors (d url) description_selectors None) as [text|] eqn:Hprobe;
    [|right; exact Hbody].
  destruct (String.eqb text "" || (Str.len text <? 100)%nat) eqn:Hshort;
    [right; exact Hbody|].
  left. apply orb_false_elim in Hshort. destruct Hshort as [_ Hlen].
  apply Nat.ltb_ge in Hlen.
  destruct (probe_selectors_source _ _ _ _ Hprobe) as [Hnone | (s & Hin & Hs)];
    [discriminate|].
  exists s. auto.
Qed.

Lemma scrape_url_first_qualifying_witness :
  scrape_url_with_selenium (fun _ => accented_page) "https://jobs.test/1"
  = repeat_text 120 e_acute.
Proof.
  apply (scrape_url_first_qualifying (fun _ => accented_page) "https://jobs.test/1"
           [nth 0 description_selectors ""]
           ["#job-description"; ".description"; nth 4 description_selectors "";
            "main"; ".content"]
           ".job-description").
  - reflexivity.
  - reflexivity.
  - intros s t [<- | []]. cbn [accented_page element_text].
    intros [= <-]. vm_compute. lia.
  - reflexivity.
  - vm_compute. lia.
Defined.

Lemma scrape_url_body_fallback_witness :
  scrape_url_with_selenium (fun _ => short_accented_page) "https://jobs.test/1"
  = repeat_text 2000 e_acute.
Proof.
  rewrite (scrape_url_body_fallback (fun _ => short_accented_page)
             "https://jobs.test/1").
  - vm_compute. reflexivity.
  - reflexivity.
  - intros selector text _. cbn [short_accented_page element_text].
    destruct (String.eqb selector "main"); [|discriminate].
    intros [= <-]. vm_compute. lia.
Defined.

(** ** The work queue *)

Section WorkQueue.

Variable newest_first : list row -> list row.

(** Ordering the selected rows keeps exactly those rows. *)
Hypothesis newest_first_permutes : forall rows, Permutation (newest_first rows) rows.

Lemma firstn_In {A : Type} (n : nat) (l : list A) (a : A) :
  In a (firstn n l) -> In a l.
Proof.
  intros Hin. rewrite <- (firstn_skipn n l). apply in_or_app. now left.
Qed.

(** The work queue holds at most 10 items, each the id and url of a row
    without a description; when at most 10 rows lack a description it
    holds all of them; without a connection it is empty. *)
Theorem work_queue_is_bounded (db : database) :
  (List.length (get_jobs_without_descriptions newest_first db) <= 10)%nat
  /\ (forall job_id url,
        In (job_id, url) (get_jobs_without_descriptions newest_first db) ->
        exists r, In r (job_listings db) /\ id r = job_id /\ url_of r = url
                  /\ job_description r = None)
  /\ (connection db = true ->
      (List.length (filter pending (job_listings db)) <= 10)%nat ->
      Permutation (get_jobs_without_descriptions newest_first db)
                  (map (fun r => (id r, url_of r)) (filter pending (job_listings db))))
  /\ (connection db = false -> get_jobs_without_descriptions newest_first db = []).
Proof.
  unfold get_jobs_without_descriptions.
  destruct (connection db); cbn [negb].
  - split; [|split; [|split; [|discriminate]]].
    + rewrite length_map. apply firstn_le_length.
    + intros job_id url Hin. apply in_map_iff in Hin.
      destruct Hin as [r [[= <- <-] Hin]].
      apply firstn_In in Hin.
      apply (Permutation_in _ (newest_first_permutes _)) in Hin.
      apply filter_In in Hin. destruct Hin as [Hin Hpending].
      exists r. repeat split; [exact Hin|].
      unfold pending in Hpending. now destruct (job_description r).
    + intros _ Hlen. apply Permutation_map.
      rewrite firstn_all2; [apply newest_first_permutes|].
      now rewrite (Permutation_length (newest_first_permutes _)).
  - split; [cbn; lia|]. split; [intros ? ? []|]. split; [discriminate|reflexivity].
Qed.

End WorkQueue.

Lemma work_queue_is_bounded_witness :
  Permutation (get_jobs_without_descriptions newest_last_first two_pending)
              [(1%Z, "https://weworkremotely.com/a"); (4%Z, "https://weworkremotely.com/c")].
Proof.
  apply (work_queue_is_bounded newest_last_first
           (fun rows => Permutation_sym (Permutation_rev rows)) two_pending).
  - reflexivity.
  - cbn. lia.
Defined.

(** ** Renderer setup *)

(** [setup_selenium_driver] looks for a browser only when the driver
    manager fails; it then launches the first of the three candidate
    paths (Program Files, Program Files (x86), the user profile) that
    exists, and raises "Chrome browser not found on system" without
    launching anything when none exists. *)
Theorem setup_selenium_driver_choice (h : host) :
  (forall driver_path, manager_install h = Ok driver_path ->
     setup_selenium_driver h = launch h (Some driver_path) None)
  /\ (forall e before chosen after,
        manager_install h = Raise e ->
        possible_chrome_paths (username h) = (before ++ chosen :: after)%list ->
        (forall p, In p before -> path_exists h p = false) ->
        path_exists h chosen = true ->
        setup_selenium_driver h = launch h None (Some chosen))
  /\ (forall e,
        manager_install h = Raise e ->
        (forall p, In p (possible_chrome_paths (username h)) -> path_exists h p = false) ->
        setup_selenium_driver h = Raise (Exception "Chrome browser not found on system")).
Proof.
  unfold setup_selenium_driver. split; [|split].
  - intros driver_path ->. reflexivity.
  - intros e before chosen after -> -> Hbefore Hchosen.
    assert (Hfind : find (path_exists h) (before ++ chosen :: after) = Some chosen).
    { induction before as [|p before IH]; cbn [app find].
      - now rewrite Hchosen.
      - rewrite (Hbefore p (or_introl eq_refl)). apply IH.
        intros q Hq. apply Hbefore. now right. }
    now rewrite Hfind.
  - intros e -> Hnone.
    destruct (find (path_exists h) (possible_chrome_paths (username h))) as [p|] eqn:Hfind;
      [|reflexivity].
    apply find_some in Hfind. destruct Hfind as [Hin Hp].
    rewrite (Hnone p Hin) in Hp. discriminate Hp.
Qed.

Lemma setup_selenium_driver_choice_witness :
  setup_selenium_driver chrome_in_x86 = Ok two_texts_driver
  /\ setup_selenium_driver no_chrome
     = Raise (Exception "Chrome browser not found on system").
Proof.
  split.
  - destruct (setup_selenium_driver_choice chrome_in_x86) as (_ & Hchoice & _).
    rewrite (Hchoice (Exception "no network")
               ["C:\Program Files\Google\Chrome\Application\chrome.exe"]
               "C:\Program Files (x86)\Google\Chrome\Application\chrome.exe"
               ["C:\Users\dev\AppData\Local\Google\Chrome\Application\chrome.exe"]
               eq_refl eq_refl).
    + reflexivity.
    + intros p [<- | []]. reflexivity.
    + reflexivity.
  - destruct (setup_selenium_driver_choice no_chrome) as (_ & _ & Hnone).
    apply (Hnone (Exception "no network") eq_refl). reflexivity.
Defined.

(** Without a browser the detail phase still runs: when the driver
    manager fails and no candidate path exists, [scrape_detail_pages]
    returns the table [generate_fallback_descriptions] leaves, without
    raising, connection or not. *)
Theorem missing_browser_uses_samples (h : host) (db : database)
    (jobs_to_update : list (Z * string)) (e : exn) :
  manager_install h = Raise e ->
  (forall p, In p (possible_chrome_paths (username h)) -> path_exists h p = false) ->
  scrape_detail_pages (setup_selenium_driver h) db jobs_to_update
  = Ok (generate_fallback_descriptions db jobs_to_update).
Proof.
  intros Hinstall Hnone. unfold setup_selenium_driver. rewrite Hinstall.
  destruct (find (path_exists h) (possible_chrome_paths (username h))) as [p|] eqn:Hfind.
  - apply find_some in Hfind. destruct Hfind as [Hin Hp].
    rewrite (Hnone p Hin) in Hp. discriminate Hp.
  - unfold scrape_detail_pages. destruct jobs_to_update; reflexivity.
Qed.

Lemma missing_browser_uses_samples_witness :
  exists db' : database,
    scrape_detail_pages (setup_selenium_driver no_chrome) two_pending
      [(1%Z, "https://weworkremotely.com/a")]
    = Ok db'
    /\ description_of db' 1 = Some data_analyst_description.
Proof.
  eexists. split.
  - apply (missing_browser_uses_samples no_chrome two_pending
             [(1%Z, "https://weworkremotely.com/a")] (Exception "no network")).
    + reflexivity.
    + reflexivity.
  - reflexivity.
Defined.

(** ** The whole run *)




